(** * Budget automation: a shallow embedding of [budget_automation.py]

    The script reads a fixed-layout flow-plan worksheet, derives per-team
    budget metrics and per-channel spend, and writes an "Automated Summary"
    sheet into a copy of the workbook.

    Modelling choices, all visible in the definitions below:
    - numbers are exact rationals ([Qc], canonical fractions, so that [=] is
      numeric equality), and a finite float is the rational it denotes; the
      metrics calculator is given a second time with every [+] and [-]
      rounded to binary64, and what is stated of it on floats is stated of
      that version;
    - a pandas DataFrame is the list of its column labels and the list of
      its rows, a row a finite map from label to cell (a label the row does
      not hold reads as missing);
    - a Python exception is a value [Raise e] of the type [result];
    - an openpyxl workbook is the ordered list of its titled sheets, a sheet
      a finite map from cell address to value, the disk a finite map from
      path to workbook;
    - a DataFrame that is passed around and mutated lives in a store, and
      the functions that touch it run in a small state-and-error monad. *)

From Stdlib Require Import QArith Qcanon Lqa Qround.
From Stdlib Require PrimFloat FloatOps SpecFloat.
From stdpp Require Import base numbers list strings gmap pretty sorting.

Local Open Scope Qc_scope.

(** ** Numbers *)

(** Python's [max(a, b)] on two arguments keeps [a] unless [b > a]. *)
Definition py_max (a b : Qc) : Qc := if Qclt_le_dec a b then b else a.

(** The mathematical maximum, as a relation: [m] is an upper bound of
    [a] and [b] and is one of them. *)
Definition is_max (a b m : Qc) : Prop := a <= m /\ b <= m /\ (m = a \/ m = b).

(** Integer literals. *)
Definition qz (n : Z) : Qc := Qc_of_Z n.

(** ** Metrics calculator *)

(** The dict returned by [compute_team_stats], one field per key. *)
Record TeamStats := mkTeamStats {
  ltp : Qc;
  buffer : Qc;
  ytd_spend : Qc;
  base_limit : Qc;
  over_vs_base : Qc;
  remaining_ltp : Qc;
  consumed_buffer : Qc;
  remaining_buffer : Qc;
  ytg_total : Qc
}.

Definition compute_team_stats (ltp' buffer' ytd_spend' : Qc) : TeamStats :=
  let base_limit' := ltp' - buffer' in
  let over_vs_base' := ytd_spend' - base_limit' in
  let remaining_ltp' := py_max (ltp' - ytd_spend') 0 in
  let consumed_buffer' := py_max (ytd_spend' - ltp') 0 in
  let remaining_buffer' := py_max (buffer' - consumed_buffer') 0 in
  let ytg_total' := py_max (ltp' + buffer' - ytd_spend') 0 in
  {| ltp := ltp';
     buffer := buffer';
     ytd_spend := ytd_spend';
     base_limit := base_limit';
     over_vs_base := over_vs_base';
     remaining_ltp := remaining_ltp';
     consumed_buffer := consumed_buffer';
     remaining_buffer := remaining_buffer';
     ytg_total := ytg_total' |}.

(** ** The metrics calculator on floats

    The source computes on binary64 floats. A finite float is the rational
    it denotes, and every [+] and [-] returns [rnd] of the exact result,
    the float nearest to it; comparisons and [max] are exact, and
    [ltp + buffer - ytd_spend] rounds twice, after the sum and after the
    difference. With [rnd] the identity this is [compute_team_stats].
    (A whole number may also reach the calculator as a Python int, whose
    arithmetic is exact; on whole amounts the two agree.) *)
Section Rounded.

Variable rnd : Qc -> Qc.

Definition compute_team_stats_fl (ltp' buffer' ytd_spend' : Qc) : TeamStats :=
  let base_limit' := rnd (ltp' - buffer') in
  let over_vs_base' := rnd (ytd_spend' - base_limit') in
  let remaining_ltp' := py_max (rnd (ltp' - ytd_spend')) 0 in
  let consumed_buffer' := py_max (rnd (ytd_spend' - ltp')) 0 in
  let remaining_buffer' := py_max (rnd (buffer' - consumed_buffer')) 0 in
  let ytg_total' := py_max (rnd (rnd (ltp' + buffer') - ytd_spend')) 0 in
  {| ltp := ltp';
     buffer := buffer';
     ytd_spend := ytd_spend';
     base_limit := base_limit';
     over_vs_base := over_vs_base';
     remaining_ltp := remaining_ltp';
     consumed_buffer := consumed_buffer';
     remaining_buffer := remaining_buffer';
     ytg_total := ytg_total' |}.

End Rounded.

(** What binary64 rounding does to whole numbers: up to 2^53 each is a
    float, so rounding leaves it as it is. *)
Definition rounds_whole_exactly (rnd : Qc -> Qc) : Prop :=
  forall z : Z, (Z.abs z <= 2 ^ 53)%Z -> rnd (qz z) = qz z.

(** The same lines on the kernel's binary64 floats, for evaluation. *)
Module F64.
Import PrimFloat.

Record TeamStats := mkTeamStats {
  ltp : float;
  buffer : float;
  ytd_spend : float;
  base_limit : float;
  over_vs_base : float;
  remaining_ltp : float;
  consumed_buffer : float;
  remaining_buffer : float;
  ytg_total : float
}.

(** [max(a, 0)] *)
Definition max0 (a : float) : float := if ltb a zero then zero else a.

Definition compute_team_stats (ltp' buffer' ytd_spend' : float) : TeamStats :=
  let base_limit' := sub ltp' buffer' in
  let over_vs_base' := sub ytd_spend' base_limit' in
  let remaining_ltp' := max0 (sub ltp' ytd_spend') in
  let consumed_buffer' := max0 (sub ytd_spend' ltp') in
  let remaining_buffer' := max0 (sub buffer' consumed_buffer') in
  let ytg_total' := max0 (sub (add ltp' buffer') ytd_spend') in
  {| ltp := ltp';
     buffer := buffer';
     ytd_spend := ytd_spend';
     base_limit := base_limit';
     over_vs_base := over_vs_base';
     remaining_ltp := remaining_ltp';
     consumed_buffer := consumed_buffer';
     remaining_buffer := remaining_buffer';
     ytg_total := ytg_total' |}.

(** The float of a whole number (exact below 2^53), and the float nearest
    to a number of hundredths. *)
Fixpoint of_positive (p : positive) : float :=
  match p with
  | xH => one
  | xO p' => mul two (of_positive p')
  | xI p' => add (mul two (of_positive p')) one
  end.
Definition whole (z : Z) : float :=
  match z with
  | Z0 => zero
  | Zpos p => of_positive p
  | Zneg p => opp (of_positive p)
  end.
Definition hundredths (z : Z) : float := div (whole z) (whole 100).

(** [ytg_total == remaining_ltp + remaining_buffer] and
    [ytd_spend <= ltp + buffer], as Python evaluates them. *)
Definition ytg_is_split (s : TeamStats) : bool :=
  eqb (ytg_total s) (add (remaining_ltp s) (remaining_buffer s)).
Definition within_budget (s : TeamStats) : bool :=
  leb (ytd_spend s) (add (ltp s) (buffer s)).

End F64.

(** ** Rounding to binary64 *)

(** [2^e] for an exponent of either sign. *)
Definition pow2 (e : Z) : Q :=
  match e with
  | Z0 => 1%Q
  | Zpos p => inject_Z (Zpos (2 ^ p))
  | Zneg p => (1 # 2 ^ p)%Q
  end.

(** The exponent [e] with [2^e <= x < 2^(e+1)], for a positive [x]. *)
Definition floor_log2 (x : Q) : Z :=
  let c := (Z.log2 (Qnum x) - Z.log2 (Zpos (Qden x)))%Z in
  if Qlt_le_dec x (pow2 c) then (c - 1)%Z else c.

(** The nearest whole number, a tie going to the even one. *)
Definition round_half_even (x : Q) : Z :=
  let f := Qfloor x in
  match Qcompare (x - inject_Z f) (1 # 2) with
  | Lt => f
  | Gt => (f + 1)%Z
  | Eq => if Z.even f then f else (f + 1)%Z
  end.

(** A positive number rounded to 53 significant bits, or to a multiple of
    2^-1074 where it is smaller than 2^-1022. *)
Definition binary64_pos (x : Q) : Q :=
  let u := Z.max (floor_log2 x - 52) (-1074) in
  (inject_Z (round_half_even (x / pow2 u)) * pow2 u)%Q.

(** The binary64 float nearest to a number, as the number it denotes;
    overflow to infinity (beyond about 1.8e308) is not part of it. *)
Definition binary64 (x : Qc) : Qc :=
  match Qcompare x 0 with
  | Eq => 0
  | Gt => Q2Qc (binary64_pos x)
  | Lt => - Q2Qc (binary64_pos (- x))
  end.

(** The number a finite kernel float denotes. *)
Definition float_value (f : PrimFloat.float) : option Qc :=
  match FloatOps.Prim2SF f with
  | SpecFloat.S754_zero _ => Some 0
  | SpecFloat.S754_finite s m e =>
      Some (Q2Qc (inject_Z (if s then Zneg m else Zpos m) * pow2 e))
  | _ => None
  end.

(** A number of hundredths, as the float nearest to it. *)
Definition hundredths (z : Z) : Qc := binary64 (Q2Qc (z # 100)).

(** ** Exceptions *)

Inductive exn :=
  | KeyError | IndexError | TypeError | FileNotFoundError.

Inductive result (A : Type) :=
  | Ok (a : A)
  | Raise (e : exn).
Arguments Ok {A} a.
Arguments Raise {A} e.

Definition result_bind {A B} (r : result A) (k : A -> result B) : result B :=
  match r with Ok a => k a | Raise e => Raise e end.

Declare Scope result_scope.
Delimit Scope result_scope with result.
Notation "x <- r ;; k" := (result_bind r (fun x => k))
  (at level 100, r at next level, right associativity) : result_scope.

Fixpoint result_mapM {A B} (f : A -> result B) (l : list A) : result (list B) :=
  match l with
  | [] => Ok []
  | a :: l' =>
      (b <- f a ;; bs <- result_mapM f l' ;; Ok (b :: bs))%result
  end.

(** ** Cells and tables *)

(** What a spreadsheet cell holds once read: nothing ([NaN], which also
    stands for [None]), a number or text. Column labels are such values
    too. *)
Inductive cell :=
  | NaN
  | Num (x : Qc)
  | Str (s : string).

Global Instance cell_eq_dec : EqDecision cell.
Proof. solve_decision. Defined.

Global Instance cell_countable : Countable cell.
Proof.
  refine (inj_countable'
    (fun c => match c with
              | NaN => inl tt | Num x => inr (inl x) | Str s => inr (inr s)
              end)
    (fun x => match x with
              | inl _ => NaN | inr (inl x) => Num x | inr (inr s) => Str s
              end) _).
  intros []; reflexivity.
Defined.

Definition notna (c : cell) : bool :=
  match c with NaN => false | _ => true end.
Definition isna (c : cell) : bool := negb (notna c).

(** [Series.fillna(v)] *)
Definition fillna (v : cell) (c : cell) : cell :=
  match c with NaN => v | _ => c end.

(** A row maps a column label to the cell it holds. *)
Abbreviation row := (gmap cell cell).

Record DataFrame := mkDataFrame {
  columns : list cell;
  rows : list row
}.

Definition cell_at (r : row) (col : cell) : cell := default NaN (r !! col).

(** [col in df.columns] *)
Definition has_column (df : DataFrame) (col : cell) : bool :=
  bool_decide (col ∈ columns df).

(** [df[col]], the column as the list of its cells, top to bottom. *)
Definition getitem (df : DataFrame) (col : cell) : result (list cell) :=
  if has_column df col then Ok ((fun r => cell_at r col) <$> rows df)
  else Raise KeyError.

(** [df[col] = v] for a scalar [v]: every row gets [v] in that column; a
    new column goes last. *)
Definition setitem (df : DataFrame) (col : cell) (v : cell) : DataFrame :=
  {| columns := if has_column df col then columns df else columns df ++ [col];
     rows := (fun r => <[col := v]> r) <$> rows df |}.

(** [df[mask]] for a row mask computed from the rows. *)
Definition select_rows (df : DataFrame) (keep : row -> bool) : DataFrame :=
  {| columns := columns df; rows := filter (fun r => keep r) (rows df) |}.

(** ** Table loader *)

Definition month_cols_original : list cell :=
  Str <$> [ "Q1"; "Unnamed: 8"; "Unnamed: 9";
            "Q2"; "Unnamed: 11"; "Unnamed: 12";
            "Q3"; "Unnamed: 14"; "Unnamed: 15";
            "Q4"; "Unnamed: 17"; "Unnamed: 18" ]%string.

(** [dict(zip(...)).get(col, col)] *)
Definition rename_label (rename_map : gmap cell cell) (col : cell) : cell :=
  default col (rename_map !! col).

(** [df.rename(columns=rename_map)] *)
Definition rename (df : DataFrame) (rename_map : gmap cell cell) : DataFrame :=
  {| columns := rename_label rename_map <$> columns df;
     rows := (fun r : row =>
                list_to_map ((fun col => (rename_label rename_map col, cell_at r col))
                               <$> columns df)) <$> rows df |}.

(** [load_flowplan_dataframe], from the frame that [pd.read_excel] returns
    for the sheet (header on line 8). *)
Definition load_flowplan_dataframe (df : DataFrame) : result DataFrame :=
  match rows df with
  | [] => Raise IndexError
  | r0 :: rest =>
      (month_names <-
         result_mapM (fun col => if has_column df col then Ok (cell_at r0 col)
                                 else Raise KeyError) month_cols_original ;;
       let df := {| columns := columns df; rows := rest |} in
       let rename_map := list_to_map (zip month_cols_original month_names) in
       Ok (rename df rename_map))%result
  end.

(** ** Spend aggregator *)

(** Python addition on what a column can hold. *)
Definition py_add (a b : cell) : result cell :=
  match a, b with
  | Num x, Num y => Ok (Num (x + y))
  | Str s, Str t => Ok (Str (s +:+ t))
  | NaN, Num _ | Num _, NaN | NaN, NaN => Ok NaN
  | _, _ => Raise TypeError
  end.

Fixpoint py_add_from (acc : cell) (cs : list cell) : result cell :=
  match cs with
  | [] => Ok acc
  | c :: cs' => (acc' <- py_add acc c ;; py_add_from acc' cs')%result
  end.

(** [Series.sum()]: missing cells count as 0, the others are added with
    Python's [+] from the first on; an empty column sums to 0. *)
Definition series_sum (cs : list cell) : result cell :=
  match fillna (Num 0) <$> cs with
  | [] => Ok (Num 0)
  | c :: cs' => py_add_from c cs'
  end.

Definition ytd_columns : list cell :=
  Str <$> ["Actual"; "Unnamed: 20"; "CAMPAIGN"; "Media"]%string.

(** The loop [for col in cols: if col not in df.columns: df[col] = 0], on
    the frame it changes. *)
Definition add_missing_columns (df : DataFrame) (cols : list cell) : DataFrame :=
  foldl (fun df col => if has_column df col then df else setitem df col (Num 0))
        df cols.

Definition is_campaign_row (r : row) : bool :=
  notna (cell_at r (Str "CAMPAIGN")) && isna (cell_at r (Str "Media")).

(** Python's [l[:k]] and [l[i]] for an [int], negative ones counting from
    the end. *)
Definition py_slice_to {A} (l : list A) (k : Z) : list A :=
  if (0 <=? k)%Z then take (Z.to_nat k) l
  else take (length l - Z.to_nat (- k))%nat l.

Definition py_index {A} (l : list A) (i : Z) : result A :=
  let n := Z.of_nat (length l) in
  let j := if (i <? 0)%Z then (i + n)%Z else i in
  if (j <? 0)%Z then Raise IndexError
  else match l !! Z.to_nat j with
       | Some a => Ok a
       | None => Raise IndexError
       end.

Definition month_order : list string :=
  [ "Jan"; "Feb"; "Mar"; "Apr"; "May"; "Jun";
    "Jul"; "Aug"; "Sep"; "Oct"; "Nov"; "Dec" ]%string.

(** One row of the frame [compute_channel_spend] returns, columns
    "Media", "YTD" and "MONTH". *)
Record ChannelRow := mkChannelRow {
  Media : cell;
  YTD : Qc;
  MONTH : Qc
}.

Global Instance ChannelRow_eq_dec : EqDecision ChannelRow.
Proof. solve_decision. Defined.

(** The order in which [groupby] and [sort_values] put keys: numbers by
    value, text by code point, numbers before text, missing last. *)
Definition cell_leb (a b : cell) : bool :=
  match a, b with
  | Num x, Num y => bool_decide (x <= y)
  | Num _, _ => true
  | Str _, Num _ => false
  | Str s, Str t => String.leb s t
  | Str _, NaN => true
  | NaN, NaN => true
  | NaN, _ => false
  end.

Definition cell_le (a b : cell) : Prop := cell_leb a b.

Global Instance cell_le_dec : RelDecision cell_le.
Proof. intros a b. unfold cell_le. apply _. Defined.

(** Sum of a float column. *)
Definition float_sum (xs : list Qc) : Qc := foldr Qcplus 0 xs.

(** A cell of a float column as a number; nothing else than numbers is
    left once the column went through [fillna(0)]. *)
Definition float_of (c : cell) : Qc :=
  match c with Num x => x | _ => 0 end.

(** [DataFrame.sum(axis=1)] on one row of float cells. *)
Definition sum_axis1 (cs : list cell) : Qc := float_sum (float_of <$> cs).

(** [frame.groupby("Media")[["YTD", "MONTH"]].sum().reset_index()]: one
    row per key, keys in order, rows with a missing key dropped. *)
Definition group_keys (keys : list cell) : list cell :=
  merge_sort cell_le (remove_dups (filter (fun k => notna k) keys)).

Definition groupby_sum (recs : list ChannelRow) : list ChannelRow :=
  let keys := group_keys (Media <$> recs) in
  (fun k =>
     let grp := filter (fun e => Media e = k) recs in
     {| Media := k; YTD := float_sum (YTD <$> grp); MONTH := float_sum (MONTH <$> grp) |})
  <$> keys.

Section Pandas.

(** How [pd.to_numeric] reads a text cell: the number it denotes, if any. *)
Variable parse_float : string -> option Qc.

(** [pd.to_numeric(..., errors="coerce")] on one cell. *)
Definition to_numeric (c : cell) : cell :=
  match c with
  | Str s => match parse_float s with Some x => Num x | None => NaN end
  | _ => c
  end.

(** The loop that makes sure every month has a column. *)
Definition add_month_columns (df : DataFrame) : DataFrame :=
  add_missing_columns df (Str <$> month_order).

Definition compute_channel_spend (df : DataFrame) (current_month : Z)
  : result (list ChannelRow) :=
  let active_months := py_slice_to month_order current_month in
  (current_month_name <- py_index month_order (current_month - 1) ;;
   _ <- getitem df (Str "Media") ;;
   let channel_rows := select_rows df (fun r => notna (cell_at r (Str "Media"))) in
   let channel_rows := add_month_columns channel_rows in
   let ytd (r : row) :=
     sum_axis1 ((fun m => fillna (Num 0)
                            (to_numeric (fillna (Num 0) (cell_at r (Str m)))))
                  <$> active_months) in
   let month (r : row) :=
     float_of (fillna (Num 0) (to_numeric (cell_at r (Str current_month_name)))) in
   let channel_rows :=
     (fun r => {| Media := cell_at r (Str "Media"); YTD := ytd r; MONTH := month r |})
       <$> rows channel_rows in
   Ok (groupby_sum channel_rows))%result.

End Pandas.

(** ** Workbooks, the disk and the store of tables *)

(** A cell address: column letter and line number. *)
Abbreviation sheet := (gmap (string * nat) cell).
Abbreviation workbook := (list (string * sheet)).

Record World := mkWorld {
  frames : gmap nat DataFrame;
  disk : gmap string workbook
}.

(** Code that reads and writes the world and may raise. *)
Definition Py (A : Type) : Type := World -> result (A * World).

Definition py_ret {A} (a : A) : Py A := fun w => Ok (a, w).
Definition py_bind {A B} (m : Py A) (k : A -> Py B) : Py B :=
  fun w => match m w with
           | Ok (a, w') => k a w'
           | Raise e => Raise e
           end.
Definition py_lift {A} (r : result A) : Py A :=
  fun w => match r with Ok a => Ok (a, w) | Raise e => Raise e end.

Declare Scope py_scope.
Delimit Scope py_scope with py.
Notation "x <- m ;; k" := (py_bind m (fun x => k))
  (at level 100, m at next level, right associativity) : py_scope.
Notation "m ;; k" := (py_bind m (fun _ => k))
  (at level 100, right associativity) : py_scope.

Fixpoint py_for {A} (l : list A) (body : A -> Py unit) : Py unit :=
  match l with
  | [] => py_ret tt
  | a :: l' => (body a ;; py_for l' body)%py
  end.

(** A table variable is a reference into the store. *)
Definition alloc (df : DataFrame) : Py nat :=
  fun w => let l := fresh (dom (frames w)) in
           Ok (l, {| frames := <[l := df]> (frames w); disk := disk w |}).
Definition deref (l : nat) : Py DataFrame :=
  fun w => match frames w !! l with
           | Some df => Ok (df, w)
           | None => Raise KeyError
           end.
Definition assign (l : nat) (df : DataFrame) : Py unit :=
  fun w => Ok (tt, {| frames := <[l := df]> (frames w); disk := disk w |}).

(** [compute_ytd_by_team(df)]: [df] is the caller's table, changed in place. *)
Definition compute_ytd_by_team (df : nat) : Py (cell * cell) :=
  (py_for ytd_columns (fun col =>
     d <- deref df ;;
     if has_column d col then py_ret tt
     else assign df (setitem d col (Num 0))) ;;
   d <- deref df ;;
   _ <- py_lift (getitem d (Str "CAMPAIGN")) ;;
   _ <- py_lift (getitem d (Str "Media")) ;;
   let campaign_rows := select_rows d is_campaign_row in
   actual <- py_lift (getitem campaign_rows (Str "Actual")) ;;
   marcom_ytd <- py_lift (series_sum (fillna (Num 0) <$> actual)) ;;
   dm_actual <- py_lift (getitem campaign_rows (Str "Unnamed: 20")) ;;
   dm_ytd <- py_lift (series_sum (fillna (Num 0) <$> dm_actual)) ;;
   py_ret (marcom_ytd, dm_ytd))%py.

(** ** Scalar reader *)

(** The disk holds, under its path, each workbook that can be opened.
    Failing to open any other path is raised as one exception, whatever
    the reason openpyxl gives (no such file, a name without an Excel
    extension, a broken archive). *)
Definition load_workbook (file_path : string) : Py workbook :=
  fun w => match disk w !! file_path with
           | Some wb => Ok (wb, w)
           | None => Raise FileNotFoundError
           end.

Definition save (wb : workbook) (file_path : string) : Py unit :=
  fun w => Ok (tt, {| frames := frames w; disk := <[file_path := wb]> (disk w) |}).

Definition sheetnames (wb : workbook) : list string := fst <$> wb.

(** [wb[title]] *)
Fixpoint wb_getitem (wb : workbook) (title : string) : result sheet :=
  match wb with
  | [] => Raise KeyError
  | (t, ws) :: wb' => if decide (t = title) then Ok ws else wb_getitem wb' title
  end.

(** [wb.remove(wb[title])] *)
Fixpoint wb_remove (wb : workbook) (title : string) : workbook :=
  match wb with
  | [] => []
  | (t, ws) :: wb' => if decide (t = title) then wb' else (t, ws) :: wb_remove wb' title
  end.

(** [value or 0] *)
Definition or_zero (c : cell) : cell :=
  match c with
  | NaN => Num 0
  | Num x => if decide (x = 0) then Num 0 else c
  | Str s => if decide (s = ""%string) then Num 0 else c
  end.

Definition sheet_name : string := "V2 2025 budget digital".

Definition read_budgets_and_buffers (file_path : string)
  : Py (cell * cell * cell * cell) :=
  (wb <- load_workbook file_path ;;
   ws <- py_lift (wb_getitem wb sheet_name) ;;
   let value (a : string * nat) := default NaN (ws !! a) in
   let marcom_ltp := or_zero (value ("K", 2%nat)%string) in
   let dm_ltp := or_zero (value ("Q", 2%nat)%string) in
   let marcom_buffer := or_zero (value ("K", 4%nat)%string) in
   let dm_buffer := or_zero (value ("Q", 4%nat)%string) in
   py_ret (marcom_ltp, marcom_buffer, dm_ltp, dm_buffer))%py.

(** ** Summary writer *)

(** Python's [s.replace(old, new)]: every occurrence of [old], left to
    right, without overlap. [skip] counts the characters of a match still
    to be dropped. *)
Fixpoint replace_from (old new : string) (skip : nat) (s : string) : string :=
  match s with
  | EmptyString => EmptyString
  | String c s' =>
      match skip with
      | S k => replace_from old new k s'
      | O =>
          if String.prefix old s
          then new +:+ replace_from old new (String.length old - 1)%nat s'
          else String c (replace_from old new 0 s')
      end
  end.

Fixpoint intersperse_string (new s : string) : string :=
  match s with
  | EmptyString => new
  | String c s' => new +:+ String c (intersperse_string new s')
  end.

Definition py_replace (old new s : string) : string :=
  if decide (old = ""%string) then intersperse_string new s
  else replace_from old new 0 s.

Definition summary_title : string := "Automated Summary".

(** [per_channel.sort_values("Media")]: ascending by key; comparing a
    number with text raises. *)
Definition sort_values (per_channel : list ChannelRow) : result (list ChannelRow) :=
  let is_num e := match Media e with Num _ => true | _ => false end in
  let is_str e := match Media e with Str _ => true | _ => false end in
  if existsb is_num per_channel && existsb is_str per_channel
  then Raise TypeError
  else Ok (merge_sort (fun a b => cell_le (Media a) (Media b)) per_channel).

Definition header_cells : list (string * string) :=
  [ ("A", "Team"); ("B", "LTP"); ("C", "Buffer"); ("D", "YTD Spend");
    ("E", "Base limit (LTP - buffer)"); ("F", "Over/(under) vs base");
    ("G", "Remaining LTP"); ("H", "Consumed buffer");
    ("I", "Remaining buffer"); ("J", "YTG total (LTP + buffer - YTD)") ]%string.

Definition write_team_row (ws : sheet) (line : nat) (name : string)
    (stats : TeamStats) : sheet :=
  let ws := <[("A", line)%string := Str name]> ws in
  let ws := <[("B", line)%string := Num (ltp stats)]> ws in
  let ws := <[("C", line)%string := Num (buffer stats)]> ws in
  let ws := <[("D", line)%string := Num (ytd_spend stats)]> ws in
  let ws := <[("E", line)%string := Num (base_limit stats)]> ws in
  let ws := <[("F", line)%string := Num (over_vs_base stats)]> ws in
  let ws := <[("G", line)%string := Num (remaining_ltp stats)]> ws in
  let ws := <[("H", line)%string := Num (consumed_buffer stats)]> ws in
  let ws := <[("I", line)%string := Num (remaining_buffer stats)]> ws in
  <[("J", line)%string := Num (ytg_total stats)]> ws.

Fixpoint write_channel_rows (ws : sheet) (line : nat) (recs : list ChannelRow)
  : sheet :=
  match recs with
  | [] => ws
  | rec :: recs' =>
      let ws := <[("A", line)%string := Media rec]> ws in
      let ws := <[("B", line)%string := Num (YTD rec)]> ws in
      let ws := <[("C", line)%string := Num (MONTH rec)]> ws in
      write_channel_rows ws (line + 1)%nat recs'
  end.

(** Everything the writer puts on the fresh sheet, in the order written;
    [sorted] is the channel frame after [sort_values]. *)
Definition fill_summary (ws : sheet) (marcom_stats dm_stats : TeamStats)
    (sorted : list ChannelRow) (current_month : Z) : sheet :=
  let ws := foldl (fun ws hc => <[(hc.1, 1%nat) := Str hc.2]> ws) ws header_cells in
  let ws := write_team_row ws 2%nat "MarCom" marcom_stats in
  let ws := write_team_row ws 3%nat "Digital Marketing" dm_stats in
  let ws := <[("A", 5%nat)%string :=
                Str ("Channel spend (current month = " +:+ pretty current_month +:+ ")")]> ws in
  let ws := <[("A", 6%nat)%string := Str "Channel"]> ws in
  let ws := <[("B", 6%nat)%string := Str "Spend YTD"]> ws in
  let ws := <[("C", 6%nat)%string := Str "Spend current month"]> ws in
  write_channel_rows ws 7%nat sorted.

Section Openpyxl.

(** The title [create_sheet] gives a new sheet: the one asked for unless
    the workbook already has it, then a numbered variant. *)
Variable unique_title : list string -> string -> string.

Definition write_automated_summary (file_path : string)
    (marcom_stats dm_stats : TeamStats) (per_channel : list ChannelRow)
    (current_month : Z) : Py string :=
  (wb <- load_workbook file_path ;;
   let wb := if bool_decide (summary_title ∈ sheetnames wb)
             then wb_remove wb summary_title else wb in
   let title := unique_title (sheetnames wb) summary_title in
   sorted <- py_lift (sort_values per_channel) ;;
   let ws := fill_summary ∅ marcom_stats dm_stats sorted current_month in
   let wb := wb ++ [(title, ws)] in
   let out_path := py_replace ".xlsx" "_automated.xlsx" file_path in
   save wb out_path ;;
   py_ret out_path)%py.

(** ** The run *)

Variable parse_float : string -> option Qc.

Definition FILE_PATH : string := "2025 Digital budget flowplan.xlsx".
Definition CURRENT_MONTH : Z := 11%Z.

(** Arithmetic on a cell that is not a number raises. *)
Definition as_number (c : cell) : result Qc :=
  match c with Num x => Ok x | _ => Raise TypeError end.

Definition team_stats_of (ltp' buffer' ytd' : cell) : result TeamStats :=
  (l <- as_number ltp' ;; b <- as_number buffer' ;; y <- as_number ytd' ;;
   Ok (compute_team_stats l b y))%result.

(** [main], from the frame [pd.read_excel] returns for [FILE_PATH]. *)
Definition main (sheet_frame : DataFrame) : Py string :=
  (loaded <- py_lift (load_flowplan_dataframe sheet_frame) ;;
   df <- alloc loaded ;;
   budgets <- read_budgets_and_buffers FILE_PATH ;;
   let '(marcom_ltp, marcom_buffer, dm_ltp, dm_buffer) := budgets in
   ytd <- compute_ytd_by_team df ;;
   let '(marcom_ytd, dm_ytd) := ytd in
   marcom_stats <- py_lift (team_stats_of marcom_ltp marcom_buffer marcom_ytd) ;;
   dm_stats <- py_lift (team_stats_of dm_ltp dm_buffer dm_ytd) ;;
   table <- deref df ;;
   per_channel <- py_lift (compute_channel_spend parse_float table CURRENT_MONTH) ;;
   write_automated_summary FILE_PATH marcom_stats dm_stats per_channel CURRENT_MONTH)%py.

End Openpyxl.

(** ** Deciding equality, for evaluation on examples *)

Global Instance exn_eq_dec : EqDecision exn.
Proof. solve_decision. Defined.
Global Instance result_eq_dec {A} `{EqDecision A} : EqDecision (result A).
Proof. solve_decision. Defined.
Global Instance DataFrame_eq_dec : EqDecision DataFrame.
Proof. solve_decision. Defined.
Global Instance TeamStats_eq_dec : EqDecision TeamStats.
Proof. solve_decision. Defined.
Global Instance World_eq_dec : EqDecision World.
Proof. solve_decision. Defined.

(** ** Notions the statements below use *)

(** The two sums of [compute_ytd_by_team], over the campaign rows of the
    table as the loop left it. *)
Definition ytd_sums (d : DataFrame) : result (cell * cell) :=
  let campaign_rows := select_rows d is_campaign_row in
  (a <- series_sum (fillna (Num 0) <$>
          ((fun r => cell_at r (Str "Actual")) <$> rows campaign_rows)) ;;
   b <- series_sum (fillna (Num 0) <$>
          ((fun r => cell_at r (Str "Unnamed: 20")) <$> rows campaign_rows)) ;;
   Ok (a, b))%result.

(** ** Example tables *)

(** A row given by its text-labelled cells. *)
Definition mkrow (l : list (string * cell)) : row :=
  list_to_map ((fun p => (Str p.1, p.2)) <$> l).

Definition world_of (d : DataFrame) : World :=
  {| frames := {[ 0%nat := d ]}; disk := ∅ |}.

(** Two campaign rows; the second has text where a spend should be. *)
Definition df_text_actual : DataFrame :=
  {| columns := Str <$> ["CAMPAIGN"; "Media"; "Actual"; "Unnamed: 20"]%string;
     rows := [ mkrow [("CAMPAIGN", Str "Camp1"); ("Media", NaN);
                      ("Actual", Num (qz 100)); ("Unnamed: 20", Num (qz 50))]%string;
               mkrow [("CAMPAIGN", Str "Camp2"); ("Media", NaN);
                      ("Actual", Str "n/a"); ("Unnamed: 20", Num (qz 25))]%string ] |}.

(** The same rows with the text cell left empty. *)
Definition df_empty_actual : DataFrame :=
  {| columns := Str <$> ["CAMPAIGN"; "Media"; "Actual"; "Unnamed: 20"]%string;
     rows := [ mkrow [("CAMPAIGN", Str "Camp1"); ("Media", NaN);
                      ("Actual", Num (qz 100)); ("Unnamed: 20", Num (qz 50))]%string;
               mkrow [("CAMPAIGN", Str "Camp2"); ("Media", NaN);
                      ("Actual", NaN); ("Unnamed: 20", Num (qz 25))]%string ] |}.

(** A table with no "Media" column. *)
Definition df_no_media : DataFrame :=
  {| columns := Str <$> ["CAMPAIGN"; "Actual"; "Jan"]%string;
     rows := [ mkrow [("CAMPAIGN", Str "Camp1"); ("Actual", Num (qz 100));
                      ("Jan", Num (qz 7))]%string ] |}.

(** A reader that takes no text for a number. *)
Definition no_parse : string -> option Qc := fun _ => None.

(** Two rows of one channel, the example of the specification. *)
Definition df_dv360 : DataFrame :=
  {| columns := Str <$> ["Media"; "Jan"; "Feb"]%string;
     rows := [ mkrow [("Media", Str "DV360"); ("Jan", Num (qz 10));
                      ("Feb", Num (qz 20))]%string;
               mkrow [("Media", Str "DV360"); ("Jan", Num (qz 5));
                      ("Feb", Num 0)]%string ] |}.

(** The twelve month slots with a label line that names January to
    November and leaves the last slot empty, and one line of data. *)
Definition df_eleven_labels : DataFrame :=
  {| columns := Str "Media" :: month_cols_original;
     rows := [ list_to_map (zip month_cols_original
                 ((Str <$> ["Jan"; "Feb"; "Mar"; "Apr"; "May"; "Jun";
                            "Jul"; "Aug"; "Sep"; "Oct"; "Nov"]%string) ++ [NaN]));
               <[Str "Media" := Str "DV360"]>
                 (list_to_map ((fun c => (c, Num (qz 1))) <$> month_cols_original)) ] |}.

(** A workbook with the budget sheet only. *)
Definition wb_flowplan : workbook := [ (sheet_name, ∅) ].

(** A workbook that already carries an old summary, between two sheets. *)
Definition wb_with_summary : workbook :=
  [ (sheet_name, ∅);
    (summary_title, {[ ("A", 9%nat)%string := Str "stale" ]});
    ("Notes"%string, ∅) ].

Definition disk_of (file_path : string) (wb : workbook) : World :=
  {| frames := ∅; disk := {[ file_path := wb ]} |}.

(** A naming policy for new sheets: the title asked for when it is free,
    the title with "1" appended otherwise. *)
Definition title_or_numbered (names : list string) (title : string) : string :=
  if bool_decide (title ∈ names) then title +:+ "1" else title.

(** What the writer keeps of the workbook it opened. *)
Definition without_summary (wb : workbook) : workbook :=
  if bool_decide (summary_title ∈ sheetnames wb)
  then wb_remove wb summary_title else wb.


(** A cell as the number the channel sums count it for: a number is
    itself, text is the number it reads as if it reads as one, anything
    else is zero. *)
Definition coerce (parse_float : string -> option Qc) (c : cell) : Qc :=
  match c with
  | Num x => x
  | Str s => default 0 (parse_float s)
  | NaN => 0
  end.

(** The spend of a row in a month: the coerced cell of the month's column,
    zero when the table has no such column. *)
Definition month_value (parse_float : string -> option Qc) (df : DataFrame)
    (r : row) (m : string) : Qc :=
  if has_column df (Str m) then coerce parse_float (cell_at r (Str m)) else 0.

(** The rows of a table that carry a given channel name. *)
Definition rows_of_channel (df : DataFrame) (k : cell) : list row :=
  filter (fun r => cell_at r (Str "Media") = k) (rows df).


(** The twelve month slots with a full label line, a "Media" column and
    two lines of data. *)
Definition df_twelve_labels : DataFrame :=
  {| columns := Str "Media" :: month_cols_original;
     rows := [ list_to_map (zip month_cols_original (Str <$> month_order));
               <[Str "Media" := Str "DV360"]>
                 (list_to_map ((fun c => (c, Num (qz 1))) <$> month_cols_original));
               <[Str "Media" := Str "Social"]>
                 (list_to_map ((fun c => (c, Num (qz 2))) <$> month_cols_original)) ] |}.

(** The label a column has after loading, [r0] being the label line. *)
Definition loaded_label (r0 : row) (col : cell) : cell :=
  if bool_decide (col ∈ month_cols_original) then cell_at r0 col else col.

(** What loading [df_twelve_labels] gives. *)
Definition loaded_twelve : DataFrame :=
  rename {| columns := columns df_twelve_labels; rows := tail (rows df_twelve_labels) |}
    (list_to_map (zip month_cols_original (Str <$> month_order))).

(** A budget sheet with a plan but no buffer for the first team, and text
    and an empty text for the second. *)
Definition wb_budgets : workbook :=
  [ ("Cover"%string, ∅);
    (sheet_name, {[ ("K", 2%nat)%string := Num (qz 1000);
                    ("Q", 2%nat)%string := Str "tbd";
                    ("Q", 4%nat)%string := Str "" ]}) ].

(** The four figures [read_budgets_and_buffers] reads off the budget
    sheet: plan and buffer of the first team, then of the second. *)
Definition budget_figures (ws : sheet) : cell * cell * cell * cell :=
  (or_zero (default NaN (ws !! ("K", 2%nat)%string)),
   or_zero (default NaN (ws !! ("K", 4%nat)%string)),
   or_zero (default NaN (ws !! ("Q", 2%nat)%string)),
   or_zero (default NaN (ws !! ("Q", 4%nat)%string))).

(** A cell a spend sum can take in: a number or nothing. *)
Definition not_text (c : cell) : Prop :=
  match c with Str _ => False | _ => True end.

(** Campaign rows with a missing spend, and a channel row. *)
Definition df_campaigns : DataFrame :=
  {| columns := Str <$> ["CAMPAIGN"; "Media"; "Actual"; "Unnamed: 20"]%string;
     rows := [ mkrow [("CAMPAIGN", Str "Camp1"); ("Media", NaN);
                      ("Actual", Num (qz 100)); ("Unnamed: 20", Num (qz 50))]%string;
               mkrow [("CAMPAIGN", Str "Camp1"); ("Media", Str "DV360");
                      ("Actual", Num (qz 40)); ("Unnamed: 20", Num (qz 4))]%string;
               mkrow [("CAMPAIGN", Str "Camp2"); ("Media", NaN);
                      ("Actual", NaN); ("Unnamed: 20", Num (qz 25))]%string ] |}.

Global Instance not_text_dec (c : cell) : Decision (not_text c).
Proof. destruct c; cbn; apply _. Defined.

(** Python's [old in s] on text. *)
Fixpoint has_substring (old s : string) : bool :=
  match s with
  | EmptyString => String.prefix old s
  | String _ s' => String.prefix old s || has_substring old s'
  end.

(** The cells of a team line, column by column. *)
Definition team_row_cells (name : string) (stats : TeamStats) : list (string * cell) :=
  [ ("A", Str name); ("B", Num (ltp stats)); ("C", Num (buffer stats));
    ("D", Num (ytd_spend stats)); ("E", Num (base_limit stats));
    ("F", Num (over_vs_base stats)); ("G", Num (remaining_ltp stats));
    ("H", Num (consumed_buffer stats)); ("I", Num (remaining_buffer stats));
    ("J", Num (ytg_total stats)) ]%string.


(** A workbook with budget figures, and the frame read off its sheet. *)
Definition wb_run : workbook :=
  [ (sheet_name, {[ ("K", 2%nat)%string := Num (qz 1000);
                    ("K", 4%nat)%string := Num (qz 100);
                    ("Q", 2%nat)%string := Num (qz 500) ]}) ].

Definition frame_run : DataFrame :=
  {| columns := (Str <$> ["CAMPAIGN"; "Media"; "Actual"; "Unnamed: 20"]%string)
                ++ month_cols_original;
     rows := [ list_to_map (zip month_cols_original (Str <$> month_order));
               <[Str "CAMPAIGN" := Str "Camp1"]>
                 (<[Str "Actual" := Num (qz 300)]>
                    (<[Str "Unnamed: 20" := Num (qz 120)]> ∅));
               <[Str "Media" := Str "DV360"]>
                 (list_to_map ((fun c => (c, Num (qz 10))) <$> month_cols_original)) ] |}.

(* ================================================================== *)
(** * Properties *)

(** ** Arithmetic on [Qc] *)

Lemma Qc_eq_Qeq (x y : Qc) : x = y <-> (this x == this y)%Q.
Proof. split; [intros ->; reflexivity | apply Qc_is_canon]. Qed.

(** Linear arithmetic over [Qc], by reading every operation on the
    underlying fractions. *)
Ltac qc_lra :=
  repeat match goal with
         | H : @eq Qc _ _ |- _ => apply Qc_eq_Qeq in H
         | H : ~ @eq Qc _ _ |- _ => rewrite Qc_eq_Qeq in H
         | |- ~ @eq Qc _ _ => rewrite Qc_eq_Qeq
         | |- @eq Qc _ _ => apply Qc_is_canon
         end;
  unfold Qcle, Qclt, Qcminus, Qcplus, Qcopp, Qcmult, Q2Qc in *; simpl this in *;
  rewrite ?Qred_correct in *; lra.

(** Closed goals are settled by evaluation. *)
Ltac py_eval := apply (bool_decide_unpack _); vm_compute; exact I.

Lemma py_max_is_max (a b : Qc) : is_max a b (py_max a b).
Proof.
  unfold is_max, py_max. destruct (Qclt_le_dec a b) as [Hlt|Hle].
  - repeat split; [qc_lra | qc_lra | now right].
  - repeat split; [qc_lra | qc_lra | now left].
Qed.

Lemma is_max_unique (a b m n : Qc) : is_max a b m -> is_max a b n -> m = n.
Proof. unfold is_max. intros (?&?&[?|?]) (?&?&[?|?]); subst; qc_lra. Qed.

Lemma py_max_0_nonneg (a : Qc) : 0 <= py_max a 0.
Proof. apply (py_max_is_max a 0). Qed.

Ltac max_cases :=
  unfold py_max in *; repeat destruct (Qclt_le_dec _ _); simpl in *.

(** ** Metrics calculator *)

(** C1: [compute_team_stats] is a total function of (plan, buffer,
    ytdSpend) whose record echoes its three inputs and carries exactly
    baseLimit = plan - buffer, overVsBase = ytdSpend - baseLimit,
    remainingPlan = max(plan - ytdSpend, 0), consumedBuffer =
    max(ytdSpend - plan, 0), remainingBuffer = max(buffer - consumedBuffer, 0)
    and ytgTotal = max(plan + buffer - ytdSpend, 0); hence remainingPlan,
    remainingBuffer and ytgTotal are never negative. *)
Theorem compute_team_stats_formulas (plan buf ytd : Qc) :
  let s := compute_team_stats plan buf ytd in
  (ltp s = plan /\ buffer s = buf /\ ytd_spend s = ytd) /\
  base_limit s = plan - buf /\
  over_vs_base s = ytd - base_limit s /\
  is_max (plan - ytd) 0 (remaining_ltp s) /\
  is_max (ytd - plan) 0 (consumed_buffer s) /\
  is_max (buf - consumed_buffer s) 0 (remaining_buffer s) /\
  is_max (plan + buf - ytd) 0 (ytg_total s) /\
  0 <= remaining_ltp s /\ 0 <= remaining_buffer s /\ 0 <= ytg_total s.
Proof.
  cbv zeta. unfold compute_team_stats; simpl.
  repeat split; try reflexivity;
    solve [ apply py_max_is_max | apply py_max_0_nonneg ].
Qed.

(** On exact numbers, a buffer that is not negative and a spend of at
    most plan + buffer give ytgTotal = remainingPlan + remainingBuffer. *)
Lemma ytg_split_exact (plan buf ytd : Qc) :
  0 <= buf -> ytd <= plan + buf ->
  let s := compute_team_stats plan buf ytd in
  ytg_total s = remaining_ltp s + remaining_buffer s.
Proof.
  intros Hb Hy. cbv zeta. unfold compute_team_stats; simpl.
  max_cases; qc_lra.
Qed.

(** ** The metrics calculator on floats *)

Lemma py_max_qz (a : Z) : py_max (qz a) 0 = qz (Z.max a 0).
Proof.
  unfold py_max, qz. destruct (Qclt_le_dec (Qc_of_Z a) 0) as [H|H].
  - rewrite <-Z2Qc_inj_0 in H. apply Z2Qc_inj_lt in H.
    rewrite Z.max_r by lia. by rewrite Z2Qc_inj_0.
  - rewrite <-Z2Qc_inj_0 in H. apply Z2Qc_inj_le in H. by rewrite Z.max_l by lia.
Qed.

(** On whole amounts up to 2^51 no operation of the calculator rounds: the
    float computation returns the record of the exact one. *)
Lemma compute_team_stats_fl_whole (rnd : Qc -> Qc) (plan buf ytd : Z) :
  rounds_whole_exactly rnd ->
  (Z.abs plan <= 2 ^ 51)%Z -> (Z.abs buf <= 2 ^ 51)%Z -> (Z.abs ytd <= 2 ^ 51)%Z ->
  compute_team_stats_fl rnd (qz plan) (qz buf) (qz ytd)
    = compute_team_stats (qz plan) (qz buf) (qz ytd).
Proof.
  intros Hrnd Hp Hb Hy. unfold rounds_whole_exactly in Hrnd.
  change (2 ^ 51)%Z with 2251799813685248%Z in *.
  change (2 ^ 53)%Z with 9007199254740992%Z in *.
  unfold compute_team_stats_fl, compute_team_stats, qz in *. cbv zeta.
  rewrite <-!Z2Qc_inj_sub, <-!Z2Qc_inj_add.
  rewrite (Hrnd (plan - buf)%Z) by lia.
  rewrite <-!Z2Qc_inj_sub. rewrite (Hrnd (ytd - (plan - buf))%Z) by lia.
  rewrite (Hrnd (plan - ytd)%Z) by lia.
  rewrite (Hrnd (ytd - plan)%Z) by lia.
  rewrite (Hrnd (plan + buf)%Z) by lia.
  rewrite <-!Z2Qc_inj_sub. rewrite (Hrnd (plan + buf - ytd)%Z) by lia.
  fold (qz (ytd - plan)). rewrite (py_max_qz (ytd - plan)). unfold qz.
  rewrite <-!Z2Qc_inj_sub. rewrite (Hrnd (buf - Z.max (ytd - plan) 0)%Z) by lia.
  reflexivity.
Qed.

(** The figures of the calculator on whole amounts, as whole numbers. *)
Lemma compute_team_stats_whole (plan buf ytd : Z) :
  let s := compute_team_stats (qz plan) (qz buf) (qz ytd) in
  remaining_ltp s = qz (Z.max (plan - ytd) 0) /\
  consumed_buffer s = qz (Z.max (ytd - plan) 0) /\
  remaining_buffer s = qz (Z.max (buf - Z.max (ytd - plan) 0) 0) /\
  ytg_total s = qz (Z.max (plan + buf - ytd) 0).
Proof.
  cbv zeta. unfold compute_team_stats.
  cbn [remaining_ltp consumed_buffer remaining_buffer ytg_total].
  unfold qz. rewrite <-!Z2Qc_inj_add, <-!Z2Qc_inj_sub.
  fold (qz (plan - ytd)) (qz (ytd - plan)) (qz (plan + buf - ytd)).
  rewrite !py_max_qz. unfold qz. rewrite <-Z2Qc_inj_sub.
  fold (qz (buf - Z.max (ytd - plan) 0)). by rewrite py_max_qz.
Qed.

Lemma round_half_even_whole (x : Q) (n : Z) :
  (x == inject_Z n)%Q -> round_half_even x = n.
Proof.
  intros H. unfold round_half_even.
  assert (Qfloor x = n) as ->.
  { rewrite (Qfloor_comp x (inject_Z n) H). apply Qfloor_Z. }
  assert (x - inject_Z n < 1 # 2)%Q as Hlt by lra.
  by rewrite (proj1 (Qlt_alt (x - inject_Z n) (1 # 2)) Hlt).
Qed.

Lemma binary64_pos_whole (p : positive) :
  (Zpos p <= 2 ^ 53)%Z -> (binary64_pos (inject_Z (Zpos p)) == inject_Z (Zpos p))%Q.
Proof.
  intros Hp.
  assert (floor_log2 (inject_Z (Zpos p)) = Z.log2 (Zpos p)) as Hlog.
  { unfold floor_log2. cbn [Qnum Qden inject_Z]. change (Z.log2 1) with 0%Z.
    rewrite Z.sub_0_r.
    destruct (Qlt_le_dec _ _) as [Hlt|_]; [exfalso|done].
    pose proof (Z.log2_spec (Zpos p) eq_refl) as [Hlow _].
    pose proof (Z.log2_nonneg (Zpos p)) as Hnn.
    destruct (Z.log2 (Zpos p)) as [|k|k] eqn:Hk; [| |lia].
    - unfold Qlt in Hlt. cbn in Hlt. lia.
    - unfold pow2 in Hlt. rewrite <-Zlt_Qlt in Hlt.
      rewrite Pos2Z.inj_pow in Hlt. lia. }
  unfold binary64_pos. rewrite Hlog.
  pose proof (Z.log2_nonneg (Zpos p)) as Hnn.
  assert (Z.log2 (Zpos p) <= 53)%Z as Hle.
  { change 53%Z with (Z.log2 (2 ^ 53)). by apply Z.log2_le_mono. }
  rewrite Z.max_l by lia.
  destruct (Z.eq_dec (Z.log2 (Zpos p)) 53%Z) as [E|NE].
  - pose proof (Z.log2_spec (Zpos p) eq_refl) as [Hlow _]. rewrite E in Hlow.
    assert (Zpos p = 2 ^ 53)%Z as -> by lia. vm_compute. reflexivity.
  - destruct (Z.log2 (Zpos p) - 52)%Z as [|k|k] eqn:Hu.
    + unfold pow2. rewrite (round_half_even_whole _ (Zpos p)) by field. ring.
    + lia.
    + unfold pow2.
      rewrite (round_half_even_whole _ (Zpos (p * 2 ^ k))).
      * unfold Qeq, Qmult, inject_Z. cbn. lia.
      * unfold Qeq, Qdiv, Qmult, Qinv, inject_Z. cbn. lia.
Qed.

(** Binary64 rounding leaves the whole numbers up to 2^53 as they are. *)
Lemma binary64_rounds_whole_exactly : rounds_whole_exactly binary64.
Proof.
  intros [|p|p] Hz; unfold binary64, qz.
  - apply Qc_is_canon. reflexivity.
  - replace (Qcompare (Qc_of_Z (Zpos p)) 0) with Gt by reflexivity.
    apply Qc_is_canon. cbn [this Q2Qc Qc_of_Z]. rewrite Qred_correct.
    apply binary64_pos_whole. lia.
  - replace (Qcompare (Qc_of_Z (Zneg p)) 0) with Lt by reflexivity.
    apply Qc_is_canon. cbn [this Q2Qc Qc_of_Z Qcopp].
    change (- inject_Z (Zneg p))%Q with (inject_Z (Zpos p)).
    rewrite !Qred_correct. rewrite binary64_pos_whole by lia. reflexivity.
Qed.

(** The float computation on whole amounts up to 2^51, figure by figure. *)
Lemma compute_team_stats_binary64_whole (plan buf ytd : Z) :
  (Z.abs plan <= 2 ^ 51)%Z -> (Z.abs buf <= 2 ^ 51)%Z -> (Z.abs ytd <= 2 ^ 51)%Z ->
  let s := compute_team_stats_fl binary64 (qz plan) (qz buf) (qz ytd) in
  remaining_ltp s = qz (Z.max (plan - ytd) 0) /\
  consumed_buffer s = qz (Z.max (ytd - plan) 0) /\
  remaining_buffer s = qz (Z.max (buf - Z.max (ytd - plan) 0) 0) /\
  ytg_total s = qz (Z.max (plan + buf - ytd) 0) /\
  binary64 (remaining_ltp s + remaining_buffer s)
    = qz (Z.max (plan - ytd) 0 + Z.max (buf - Z.max (ytd - plan) 0) 0) /\
  binary64 (consumed_buffer s + remaining_buffer s)
    = qz (Z.max (ytd - plan) 0 + Z.max (buf - Z.max (ytd - plan) 0) 0).
Proof.
  intros Hp Hb Hy. cbv zeta.
  rewrite (compute_team_stats_fl_whole binary64 plan buf ytd
             binary64_rounds_whole_exactly Hp Hb Hy).
  destruct (compute_team_stats_whole plan buf ytd) as (-> & -> & -> & ->).
  change (2 ^ 51)%Z with 2251799813685248%Z in *.
  repeat split; unfold qz; rewrite <-Z2Qc_inj_add;
    apply binary64_rounds_whole_exactly;
    change (2 ^ 53)%Z with 9007199254740992%Z; lia.
Qed.

(** On the amounts 1524.56, 0.63 and 1113.47 the rounded calculator
    returns, figure by figure, the numbers the kernel's floats give, and
    so does the sum of what is left of plan and buffer. *)
Lemma binary64_agrees_with_floats :
  let s := compute_team_stats_fl binary64
             (hundredths 152456) (hundredths 63) (hundredths 111347) in
  let f := F64.compute_team_stats (F64.hundredths 152456) (F64.hundredths 63)
             (F64.hundredths 111347) in
  float_value <$> [F64.ltp f; F64.buffer f; F64.ytd_spend f; F64.base_limit f;
                   F64.over_vs_base f; F64.remaining_ltp f; F64.consumed_buffer f;
                   F64.remaining_buffer f; F64.ytg_total f]
    = Some <$> [ltp s; buffer s; ytd_spend s; base_limit s; over_vs_base s;
                remaining_ltp s; consumed_buffer s; remaining_buffer s; ytg_total s] /\
  float_value (PrimFloat.add (F64.remaining_ltp f) (F64.remaining_buffer f))
    = Some (binary64 (remaining_ltp s + remaining_buffer s)).
Proof. cbv zeta. split; py_eval. Qed.

(** C2, as stated, fails. With plan 10, buffer -2 and spend 5 the spend is
    within plan + buffer, yet ytgTotal is 3 and remainingPlan +
    remainingBuffer is 5. And the two sides are rounded differently: with
    plan 1524.56, buffer 0.63 and spend 1113.47, a buffer that is not
    negative and a spend within plan + buffer, ytgTotal is the float above
    remainingPlan + remainingBuffer. The kernel's floats give the same
    verdicts. *)
Lemma ytg_split_fails :
  (let s := compute_team_stats_fl binary64 (qz 10) (qz (-2)) (qz 5) in
   ytd_spend s <= binary64 (ltp s + buffer s) /\
   ytg_total s = qz 3 /\
   binary64 (remaining_ltp s + remaining_buffer s) = qz 5) /\
  (let s := compute_team_stats_fl binary64
              (hundredths 152456) (hundredths 63) (hundredths 111347) in
   0 <= buffer s /\
   ytd_spend s <= binary64 (ltp s + buffer s) /\
   binary64 (remaining_ltp s + remaining_buffer s) < ytg_total s) /\
  (let f := F64.compute_team_stats (F64.whole 10) (F64.whole (-2)) (F64.whole 5) in
   F64.within_budget f = true /\ F64.ytg_is_split f = false) /\
  (let f := F64.compute_team_stats (F64.hundredths 152456) (F64.hundredths 63)
              (F64.hundredths 111347) in
   PrimFloat.leb PrimFloat.zero (F64.buffer f) = true /\
   F64.within_budget f = true /\ F64.ytg_is_split f = false).
Proof.
  split; [|split; [|split]]; cbv zeta.
  - repeat split; py_eval.
  - repeat split; py_eval.
  - split; vm_compute; reflexivity.
  - repeat split; vm_compute; reflexivity.
Qed.

(** C2, amended: on whole amounts of at most 2^51, where no operation of
    the calculator rounds, a buffer that is not negative and a spend of at
    most plan + buffer give ytgTotal == remainingPlan + remainingBuffer,
    the sum taken as the program takes it; this covers the boundary cases
    spend = 0, spend = plan and spend = plan + buffer. *)
Theorem ytg_split_whole_amounts (plan buf ytd : Z) :
  (Z.abs plan <= 2 ^ 51)%Z -> (Z.abs buf <= 2 ^ 51)%Z -> (Z.abs ytd <= 2 ^ 51)%Z ->
  (0 <= buf)%Z -> (ytd <= plan + buf)%Z ->
  let s := compute_team_stats_fl binary64 (qz plan) (qz buf) (qz ytd) in
  ytg_total s = binary64 (remaining_ltp s + remaining_buffer s).
Proof.
  intros Hp Hb Hy Hb0 Hle. cbv zeta.
  destruct (compute_team_stats_binary64_whole plan buf ytd Hp Hb Hy)
    as (_ & _ & _ & -> & -> & _).
  f_equal. lia.
Qed.

Lemma ytg_split_whole_amounts_witness :
  (let s := compute_team_stats_fl binary64 (qz 100) (qz 20) (qz 0) in
   ytg_total s = binary64 (remaining_ltp s + remaining_buffer s)) /\
  (let s := compute_team_stats_fl binary64 (qz 100) (qz 20) (qz 100) in
   ytg_total s = binary64 (remaining_ltp s + remaining_buffer s)) /\
  (let s := compute_team_stats_fl binary64 (qz 100) (qz 20) (qz 120) in
   ytg_total s = binary64 (remaining_ltp s + remaining_buffer s)).
Proof.
  split; [|split].
  - apply (ytg_split_whole_amounts 100 20 0); lia.
  - apply (ytg_split_whole_amounts 100 20 100); lia.
  - apply (ytg_split_whole_amounts 100 20 120); lia.
Defined.

(** C9: for all plan, buffer and spend, negative ones included, the
    record satisfies remaining_ltp - consumed_buffer = ltp - ytd_spend;
    when spend differs from plan exactly one of the two is nonzero, and
    when they are equal both are zero. *)
Theorem remaining_minus_consumed (plan buf ytd : Qc) :
  let s := compute_team_stats plan buf ytd in
  remaining_ltp s - consumed_buffer s = ltp s - ytd_spend s /\
  (ytd <> plan ->
     (remaining_ltp s <> 0 /\ consumed_buffer s = 0) \/
     (remaining_ltp s = 0 /\ consumed_buffer s <> 0)) /\
  (ytd = plan -> remaining_ltp s = 0 /\ consumed_buffer s = 0).
Proof.
  cbv zeta. unfold compute_team_stats; simpl. split; [|split].
  - max_cases; qc_lra.
  - intros Hne. destruct (Qclt_le_dec ytd plan) as [Hlt|Hle].
    + left. split; max_cases; qc_lra.
    + right. split; max_cases; qc_lra.
  - intros ->. split; max_cases; qc_lra.
Qed.

(** ** Tables *)

Lemma cell_at_insert (r : row) (col col' v : cell) :
  cell_at (<[col := v]> r) col' = if decide (col = col') then v else cell_at r col'.
Proof.
  unfold cell_at. destruct (decide (col = col')) as [->|Hne].
  - by rewrite lookup_insert_eq.
  - by rewrite lookup_insert_ne.
Qed.

Lemma has_column_true (df : DataFrame) (col : cell) :
  has_column df col = true <-> col ∈ columns df.
Proof. unfold has_column. apply bool_decide_eq_true. Qed.

Lemma has_column_false (df : DataFrame) (col : cell) :
  has_column df col = false <-> col ∉ columns df.
Proof. unfold has_column. apply bool_decide_eq_false. Qed.

Lemma add_missing_columns_spec (cols : list cell) (df : DataFrame) :
  exists (h : row -> row) (added : list cell),
    add_missing_columns df cols =
      {| columns := columns df ++ added; rows := h <$> rows df |} /\
    (forall c, c ∈ added <-> c ∈ cols /\ c ∉ columns df) /\
    (forall r col,
       cell_at (h r) col =
         if bool_decide (col ∈ cols /\ col ∉ columns df) then Num 0 else cell_at r col).
Proof.
  unfold add_missing_columns. revert df.
  induction cols as [|c cols IH]; intros df; cbn [foldl].
  - exists id, []. split; [|split].
    + destruct df as [cs rs]; simpl. by rewrite app_nil_r, list_fmap_id.
    + intros c. rewrite elem_of_nil. tauto.
    + intros r col. case_bool_decide as H; [|done].
      destruct H as [H _]. by apply elem_of_nil in H.
  - destruct (has_column df c) eqn:Hc.
    + apply has_column_true in Hc.
      destruct (IH df) as (h & added & -> & Hadd & Hcell).
      exists h, added. split; [done|split].
      * intros c'. rewrite Hadd, elem_of_cons. split; [tauto|].
        intros [[->|?] ?]; tauto.
      * intros r col. rewrite Hcell.
        repeat case_bool_decide; try done; exfalso.
        -- destruct H as [? ?]. apply H0. split; [by apply elem_of_cons; right|done].
        -- destruct H0 as [[->|?]%elem_of_cons ?]; [done|]. by apply H.
    + assert (columns (setitem df c (Num 0)) = columns df ++ [c]) as Hcols
        by (unfold setitem; cbn [columns]; by rewrite Hc).
      assert (rows (setitem df c (Num 0)) = (fun r : row => <[c := Num 0]> r) <$> rows df)
        as Hrows by done.
      apply has_column_false in Hc.
      destruct (IH (setitem df c (Num 0))) as (h & added & -> & Hadd & Hcell).
      rewrite Hcols, Hrows. rewrite Hcols in Hadd, Hcell. clear Hcols Hrows.
      exists (fun r => h (<[c := Num 0]> r)), (c :: added). split; [|split].
      * f_equal; [by rewrite <-app_assoc | by rewrite <-list_fmap_compose].
      * intros c'. rewrite !elem_of_cons, Hadd, elem_of_app, list_elem_of_singleton.
        destruct (decide (c' = c)) as [->|Hne]; tauto.
      * intros r col. rewrite Hcell, cell_at_insert.
        destruct (decide (c = col)) as [<-|Hne].
        -- rewrite (bool_decide_eq_true_2 (c ∈ c :: cols /\ c ∉ columns df))
             by (split; [apply elem_of_cons; by left | done]).
           by case_bool_decide.
        -- apply (f_equal (fun b : bool => if b then Num 0 else cell_at r col)).
           apply bool_decide_ext.
           rewrite elem_of_cons, elem_of_app, list_elem_of_singleton.
           intuition congruence.
Qed.

Lemma add_missing_columns_has (cols : list cell) (df : DataFrame) (c : cell) :
  c ∈ columns (add_missing_columns df cols) <-> c ∈ columns df \/ c ∈ cols.
Proof.
  destruct (add_missing_columns_spec cols df) as (h & added & -> & Hadd & _).
  cbn [columns]. rewrite elem_of_app, Hadd.
  destruct (decide (c ∈ columns df)); tauto.
Qed.
(** ** The store *)

(** The in-place loop of [compute_ytd_by_team] leaves
    [add_missing_columns] of the caller's table in the caller's variable
    and touches nothing else. *)
Lemma py_for_add_missing (cols : list cell) (l : nat) (d : DataFrame) (w : World) :
  frames w !! l = Some d ->
  py_for cols (fun col =>
     d <- deref l ;;
     if has_column d col then py_ret tt
     else assign l (setitem d col (Num 0)))%py w
  = Ok (tt, {| frames := <[l := add_missing_columns d cols]> (frames w);
               disk := disk w |}).
Proof.
  revert d w. induction cols as [|c cols IH]; intros d w Hl; cbn [py_for].
  - unfold py_ret, add_missing_columns. cbn [foldl]. rewrite insert_id by done.
    by destruct w.
  - unfold py_bind at 1. unfold py_bind at 1. unfold deref at 1. rewrite Hl.
    unfold add_missing_columns. cbn [foldl].
    destruct (has_column d c) eqn:Hc.
    + unfold py_ret at 1. by apply IH.
    + unfold assign at 1.
      rewrite (IH (setitem d c (Num 0))); cbn [frames disk].
      * by rewrite insert_insert_eq.
      * by rewrite lookup_insert_eq.
Qed.

Lemma getitem_has (df : DataFrame) (col : cell) :
  col ∈ columns df -> getitem df col = Ok ((fun r => cell_at r col) <$> rows df).
Proof. intros H. unfold getitem. by rewrite (proj2 (has_column_true df col) H). Qed.

Lemma getitem_missing (df : DataFrame) (col : cell) :
  col ∉ columns df -> getitem df col = Raise KeyError.
Proof. intros H. unfold getitem. by rewrite (proj2 (has_column_false df col) H). Qed.

(** [compute_ytd_by_team] in one step: the caller's table becomes
    [add_missing_columns] of itself, and the sums are taken over it. *)
Lemma compute_ytd_by_team_run (l : nat) (d : DataFrame) (w : World) :
  frames w !! l = Some d ->
  compute_ytd_by_team l w =
    match ytd_sums (add_missing_columns d ytd_columns) with
    | Ok ab => Ok (ab, {| frames := <[l := add_missing_columns d ytd_columns]> (frames w);
                          disk := disk w |})
    | Raise e => Raise e
    end.
Proof.
  intros Hl. unfold compute_ytd_by_team.
  unfold py_bind at 1. rewrite (py_for_add_missing _ _ _ _ Hl).
  set (d' := add_missing_columns d ytd_columns).
  unfold py_bind at 1. unfold deref at 1. cbn [frames]. rewrite lookup_insert_eq.
  assert (forall c, c ∈ ytd_columns -> c ∈ columns d') as Hin.
  { intros c Hc. apply add_missing_columns_has. by right. }
  assert (forall c, c ∈ ytd_columns -> c ∈ columns (select_rows d' is_campaign_row)) as Hin'.
  { intros c Hc. cbn [select_rows columns]. by apply Hin. }
  unfold py_bind at 1. rewrite (getitem_has d' (Str "CAMPAIGN")) by (apply Hin; py_eval).
  unfold py_lift at 1.
  unfold py_bind at 1. rewrite (getitem_has d' (Str "Media")) by (apply Hin; py_eval).
  unfold py_lift at 1.
  unfold py_bind at 1.
  rewrite (getitem_has _ (Str "Actual")) by (apply Hin'; py_eval).
  unfold py_lift at 1.
  unfold ytd_sums. fold d'.
  unfold py_bind at 1. unfold py_lift at 1. unfold result_bind at 1.
  destruct (series_sum _) as [a|e]; [|done].
  unfold py_bind at 1.
  rewrite (getitem_has _ (Str "Unnamed: 20")) by (apply Hin'; py_eval).
  unfold py_lift at 1.
  unfold py_bind at 1. unfold py_lift at 1. unfold result_bind at 1.
  destruct (series_sum _) as [b|e]; [|done].
  done.
Qed.

(** C4: on a campaign row whose "Actual" cell holds text,
    [compute_ytd_by_team] raises instead of counting the cell as zero;
    with the cell empty the two sums are 100 and 75. *)
Theorem ytd_by_team_text_cell :
  compute_ytd_by_team 0 (world_of df_text_actual) = Raise TypeError /\
  (exists w, compute_ytd_by_team 0 (world_of df_empty_actual)
             = Ok ((Num (qz 100), Num (qz 75)), w)).
Proof.
  split.
  - py_eval.
  - eexists. rewrite (compute_ytd_by_team_run 0 df_empty_actual) by done.
    assert (ytd_sums (add_missing_columns df_empty_actual ytd_columns)
            = Ok (Num (qz 100), Num (qz 75))) as -> by py_eval.
    reflexivity.
Qed.

(** C10: [compute_ytd_by_team] changes the caller's table in place: each of
    "Actual", "Unnamed: 20", "CAMPAIGN", "Media" the table lacked is
    appended as a column holding 0 in every row, everything else is read as
    before, no other table and no file is touched; the next stage of
    [main], which reads the same variable, computes the channel spend from
    the changed table. *)
Theorem ytd_by_team_mutates_table (parse_float : string -> option Qc)
    (l : nat) (d : DataFrame) (w w' : World) (res : cell * cell) (M : Z) :
  frames w !! l = Some d ->
  compute_ytd_by_team l w = Ok (res, w') ->
  exists (d' : DataFrame) (h : row -> row) (added : list cell),
    frames w' !! l = Some d' /\
    columns d' = columns d ++ added /\
    rows d' = h <$> rows d /\
    (forall c, c ∈ added <-> c ∈ ytd_columns /\ c ∉ columns d) /\
    (forall c, c ∈ ytd_columns -> c ∈ columns d') /\
    (forall r col,
       cell_at (h r) col =
         if bool_decide (col ∈ ytd_columns /\ col ∉ columns d) then Num 0
         else cell_at r col) /\
    (forall l', l' <> l -> frames w' !! l' = frames w !! l') /\
    disk w' = disk w /\
    (table <- deref l ;; py_lift (compute_channel_spend parse_float table M))%py w'
      = py_lift (compute_channel_spend parse_float d' M) w'.
Proof.
  intros Hl Hrun. rewrite (compute_ytd_by_team_run l d w Hl) in Hrun.
  destruct (ytd_sums _) as [ab|e]; [|done].
  injection Hrun as _ <-.
  destruct (add_missing_columns_spec ytd_columns d) as (h & added & Heq & Hadd & Hcell).
  exists (add_missing_columns d ytd_columns), h, added.
  cbn [frames disk]. rewrite lookup_insert_eq.
  split; [done|]. split; [by rewrite Heq|]. split; [by rewrite Heq|].
  split; [done|]. split.
  { intros c Hc. apply add_missing_columns_has. by right. }
  split; [done|]. split.
  { intros l' Hne. by rewrite lookup_insert_ne. }
  split; [done|].
  unfold py_bind, deref. cbn [frames]. by rewrite lookup_insert_eq.
Qed.

Lemma ytd_by_team_mutates_table_witness :
  compute_channel_spend no_parse df_no_media 1 = Raise KeyError /\
  exists (d' : DataFrame) (h : row -> row) (added : list cell) (w' : World),
    frames w' !! 0%nat = Some d' /\
    columns d' = columns df_no_media ++ added /\
    rows d' = h <$> rows df_no_media /\
    (forall c, c ∈ added <-> c ∈ ytd_columns /\ c ∉ columns df_no_media) /\
    (forall c, c ∈ ytd_columns -> c ∈ columns d') /\
    (forall r col,
       cell_at (h r) col =
         if bool_decide (col ∈ ytd_columns /\ col ∉ columns df_no_media) then Num 0
         else cell_at r col) /\
    (forall l', l' <> 0%nat -> frames w' !! l' = frames (world_of df_no_media) !! l') /\
    disk w' = disk (world_of df_no_media) /\
    (table <- deref 0 ;; py_lift (compute_channel_spend no_parse table 1))%py w'
      = py_lift (compute_channel_spend no_parse d' 1) w'.
Proof.
  split; [py_eval|].
  pose (w' := {| frames := <[0%nat := add_missing_columns df_no_media ytd_columns]>
                             (frames (world_of df_no_media));
                 disk := disk (world_of df_no_media) |}).
  destruct (ytd_by_team_mutates_table no_parse 0 df_no_media (world_of df_no_media) w'
              (Num 0, Num 0) 1) as (d' & h & added & H).
  - reflexivity.
  - py_eval.
  - exists d', h, added, w'. exact H.
Defined.

(** ** Month index *)

Lemma py_index_in_range {A} (l : list A) (i : Z) (a : A) :
  (0 <= i)%Z -> l !! Z.to_nat i = Some a -> py_index l i = Ok a.
Proof.
  intros Hi Hl. unfold py_index.
  destruct (i <? 0)%Z eqn:E; [lia|]. rewrite E. by rewrite Hl.
Qed.

Lemma month_index_wraps (M : Z) :
  (-11 <= M <= -1)%Z ->
  py_slice_to month_order M = py_slice_to month_order (M + 12) /\
  py_index month_order (M - 1) = py_index month_order (M + 12 - 1).
Proof.
  intros HM.
  assert (exists n : nat, (n < 11)%nat /\ M = (Z.of_nat n - 11)%Z) as (n & Hn & ->).
  { exists (Z.to_nat (M + 11)). lia. }
  do 11 (destruct n as [|n]; [split; reflexivity|]). lia.
Qed.

Lemma month_index_raises (M : Z) :
  (12 < M \/ M < -11)%Z -> py_index month_order (M - 1) = @Raise string IndexError.
Proof.
  intros HM. unfold py_index. cbn [length month_order].
  destruct (M - 1 <? 0)%Z eqn:E1.
  - destruct (M - 1 + Z.of_nat 12 <? 0)%Z eqn:E2; [reflexivity|].
    exfalso. apply Z.ltb_lt in E1. apply Z.ltb_ge in E2. lia.
  - rewrite E1. destruct (month_order !! Z.to_nat (M - 1)) as [s|] eqn:E3; [|reflexivity].
    exfalso. apply Z.ltb_ge in E1. apply lookup_lt_Some in E3. cbn in E3. lia.
Qed.

Lemma filter_fmap {A B} (f : A -> B) (P : B -> Prop) `{!forall x, Decision (P x)}
    (l : list A) :
  filter P (f <$> l) = f <$> filter (fun a => P (f a)) l.
Proof.
  induction l as [|a l IH]; [done|]. cbn [fmap list_fmap].
  rewrite !filter_cons. fold (fmap f l). rewrite IH. by case_decide.
Qed.

(** [groupby_sum] over rows built from a table: one row per key, each the
    sums over the table rows that carry the key. *)
Lemma groupby_sum_fmap {A} (F : A -> ChannelRow) (rs : list A) :
  groupby_sum (F <$> rs) =
    (fun k =>
       let grp := filter (fun r => Media (F r) = k) rs in
       {| Media := k;
          YTD := float_sum ((fun r => YTD (F r)) <$> grp);
          MONTH := float_sum ((fun r => MONTH (F r)) <$> grp) |})
    <$> group_keys ((fun r => Media (F r)) <$> rs).
Proof.
  unfold groupby_sum. cbv zeta. rewrite <-list_fmap_compose.
  apply list_fmap_ext; intros _ k _.
  rewrite (filter_fmap F (fun e => Media e = k)).
  by rewrite <-!list_fmap_compose.
Qed.

Lemma float_sum_cons (x : Qc) (xs : list Qc) :
  float_sum (x :: xs) = x + float_sum xs.
Proof. reflexivity. Qed.

Lemma float_sum_zeros {A} (l : list A) : float_sum ((fun _ => 0) <$> l) = 0.
Proof.
  induction l as [|a l IH]; [done|].
  rewrite fmap_cons, float_sum_cons, IH. apply Qcplus_0_l.
Qed.

(** C6, as stated, fails: month -1 is outside 1..12 and the call returns,
    with January to November as the months to date and November as the
    current month. *)
Lemma month_minus_one_not_rejected :
  ~ (1 <= -1 <= 12)%Z /\
  compute_channel_spend no_parse df_dv360 (-1)
    = Ok [ {| Media := Str "DV360"; YTD := qz 35; MONTH := 0 |} ].
Proof. split; [lia | py_eval]. Qed.

(** C6, amended: [compute_channel_spend] checks no range. A month above 12
    or below -11 makes the month lookup raise IndexError before the table
    is read; a month from -11 to -1 gives what the month twelve higher
    gives; month 0 gives the rows of month 12 with every sum to date 0
    (December is the current month and no month is counted to date). *)
Theorem channel_spend_month_out_of_range (parse_float : string -> option Qc)
    (df : DataFrame) (M : Z) :
  ((12 < M \/ M < -11)%Z ->
     compute_channel_spend parse_float df M = Raise IndexError) /\
  ((-11 <= M <= -1)%Z ->
     compute_channel_spend parse_float df M
       = compute_channel_spend parse_float df (M + 12)) /\
  (M = 0%Z ->
     compute_channel_spend parse_float df M =
       match compute_channel_spend parse_float df 12 with
       | Ok out => Ok ((fun e => {| Media := Media e; YTD := 0; MONTH := MONTH e |}) <$> out)
       | Raise e => Raise e
       end).
Proof.
  split; [|split].
  - intros HM. unfold compute_channel_spend. by rewrite (month_index_raises M HM).
  - intros HM. destruct (month_index_wraps M HM) as [Hs Hi].
    unfold compute_channel_spend. by rewrite Hs, Hi.
  - intros ->. unfold compute_channel_spend.
    replace (py_index month_order (0 - 1)) with (@Ok string "Dec"%string) by reflexivity.
    replace (py_index month_order (12 - 1)) with (@Ok string "Dec"%string) by reflexivity.
    cbn [result_bind]. destruct (getitem df (Str "Media")) as [?|e]; [|done].
    cbn [result_bind]. f_equal.
    replace (py_slice_to month_order 0) with (@nil string) by reflexivity.
    rewrite !groupby_sum_fmap. cbn [Media YTD MONTH].
    rewrite <-list_fmap_compose.
    apply list_fmap_ext; intros _ k _. unfold compose. cbn [Media YTD MONTH].
    f_equal. exact (float_sum_zeros _).
Qed.

(** ** Table loader *)

Lemma result_mapM_guard {A B} (P : A -> bool) (g : A -> B) (e : exn)
    (l : list A) (bs : list B) :
  result_mapM (fun a => if P a then Ok (g a) else Raise e) l = Ok bs ->
  bs = g <$> l /\ Forall (fun a => P a = true) l.
Proof.
  revert bs. induction l as [|a l IH]; intros bs; cbn [result_mapM].
  - intros [= <-]. by split.
  - destruct (P a) eqn:Ha; [|done]. cbn [result_bind].
    destruct (result_mapM _ l) as [bs'|]; [|done]. cbn [result_bind].
    intros [= <-]. destruct (IH bs' eq_refl) as [-> Hall].
    split; [done|]. by constructor.
Qed.

Lemma lookup_zip_fmap (g : cell -> cell) (l : list cell) (c : cell) :
  @list_to_map cell cell row _ _ (zip l (g <$> l)) !! c =
    if bool_decide (c ∈ l) then Some (g c) else None.
Proof.
  induction l as [|a l IH]; [done|].
  cbn [fmap list_fmap zip zip_with list_to_map foldr]. fold (fmap g l).
  fold (zip l (g <$> l)). fold (list_to_map (M := gmap cell cell) (zip l (g <$> l))).
  destruct (decide (a = c)) as [->|Hne].
  - rewrite lookup_insert_eq. rewrite bool_decide_eq_true_2; [done|]. by left.
  - rewrite lookup_insert_ne by done. rewrite IH.
    apply (f_equal (fun b : bool => if b then Some (g c) else None)).
    apply bool_decide_ext. rewrite elem_of_cons. intuition congruence.
Qed.

(** C5, as stated, fails: with the label line naming only eleven months
    the loader returns a table that has no "Dec" column, and as many
    columns as the source; nothing is added. *)
Lemma loader_adds_no_month_column :
  exists d, load_flowplan_dataframe df_eleven_labels = Ok d /\
            (Str "Dec" ∉ columns d) /\
            length (columns d) = length (columns df_eleven_labels).
Proof.
  exists (rename {| columns := columns df_eleven_labels;
                    rows := tail (rows df_eleven_labels) |}
            (list_to_map (zip month_cols_original
               ((fun c => cell_at (default ∅ (head (rows df_eleven_labels))) c)
                  <$> month_cols_original)))).
  split; [py_eval|]. split; py_eval.
Qed.

(** C5, amended: the loader only relabels. When it returns, the source had
    a first line and all twelve slot columns, the result has the source's
    columns in order, each slot column under the label the first line held
    in it and every other column under its own, and the lines after the
    first; so a month has a column after loading exactly when the label
    line names it. The zero filling of the specification happens in
    [compute_channel_spend], on its own copy of the rows: there every month
    has a column afterwards, an absent one holding 0 in every row. *)
Theorem month_columns_after_loading :
  (forall df d,
     load_flowplan_dataframe df = Ok d ->
     exists r0 rest,
       rows df = r0 :: rest /\
       (forall c, c ∈ month_cols_original -> c ∈ columns df) /\
       columns d = (fun c => if bool_decide (c ∈ month_cols_original)
                             then cell_at r0 c else c) <$> columns df /\
       length (rows d) = length rest) /\
  (forall df,
     let d := add_month_columns df in
     (forall m, m ∈ month_order -> Str m ∈ columns d) /\
     exists h, rows d = h <$> rows df /\
       forall r col,
         cell_at (h r) col =
           if bool_decide (col ∈ Str <$> month_order /\ col ∉ columns df)
           then Num 0 else cell_at r col).
Proof.
  split.
  - intros df d Hload. unfold load_flowplan_dataframe in Hload.
    destruct (rows df) as [|r0 rest] eqn:Hrows; [done|].
    destruct (result_mapM _ month_cols_original) as [names|] eqn:Hnames; [|done].
    unfold result_bind in Hload.
    remember (zip month_cols_original names) as z eqn:Hz in Hload.
    injection Hload as <-.
    apply result_mapM_guard in Hnames as [-> Hall]. subst z.
    exists r0, rest. split; [done|]. split; [|split].
    + intros c Hc. rewrite Forall_forall in Hall.
      apply has_column_true. by apply Hall.
    + unfold rename. cbn [columns]. apply list_fmap_ext; intros _ c _.
      unfold rename_label. rewrite lookup_zip_fmap. by case_bool_decide.
    + unfold rename. cbn [rows]. by rewrite length_fmap.
  - intros df d. subst d. unfold add_month_columns. split.
    + intros m Hm. apply add_missing_columns_has. right.
      by apply list_elem_of_fmap_2.
    + destruct (add_missing_columns_spec (Str <$> month_order) df)
        as (h & added & -> & _ & Hcell).
      by exists h.
Qed.

(** ** Summary writer *)

(** C8: for the input path "flowplan.xlsm", which has no ".xlsx" in it,
    the path the summary is saved to is the input path itself, and the
    workbook stored there is replaced. *)
Theorem summary_overwrites_input
    (unique_title : list string -> string -> string)
    (marcom_stats dm_stats : TeamStats) :
  exists w',
    write_automated_summary unique_title "flowplan.xlsm" marcom_stats dm_stats [] 11
      (disk_of "flowplan.xlsm" wb_flowplan) = Ok ("flowplan.xlsm"%string, w') /\
    disk (disk_of "flowplan.xlsm" wb_flowplan) !! "flowplan.xlsm"%string = Some wb_flowplan /\
    disk w' !! "flowplan.xlsm"%string <> Some wb_flowplan.
Proof.
  eexists. split; [|split].
  - unfold write_automated_summary.
    unfold py_bind at 1. unfold load_workbook, disk_of. cbn [disk].
    rewrite lookup_singleton_eq. reflexivity.
  - reflexivity.
  - cbn [disk disk_of]. rewrite lookup_insert_eq.
    by intros [=].
Qed.








Section SummaryWriter.

(** How titles are compared when a sheet is created, and the title a new
    sheet gets: the one asked for when no sheet has it up to [lower]. *)
Variable lower : string -> string.
Variable unique_title : list string -> string -> string.
Hypothesis unique_title_free : forall names title,
  (forall n, n ∈ names -> lower n <> lower title) ->
  unique_title names title = title.

(** One run of the writer, step by step. *)
Lemma write_automated_summary_run (file_path : string)
    (marcom_stats dm_stats : TeamStats) (per_channel : list ChannelRow)
    (current_month : Z) (w : World) (wb : workbook) :
  disk w !! file_path = Some wb ->
  write_automated_summary unique_title file_path marcom_stats dm_stats
    per_channel current_month w =
    match sort_values per_channel with
    | Ok sorted =>
        Ok (py_replace ".xlsx" "_automated.xlsx" file_path,
            {| frames := frames w;
               disk := <[py_replace ".xlsx" "_automated.xlsx" file_path :=
                           without_summary wb ++
                             [(unique_title (sheetnames (without_summary wb)) summary_title,
                               fill_summary ∅ marcom_stats dm_stats sorted current_month)]]>
                         (disk w) |})
    | Raise e => Raise e
    end.
Proof.
  intros Hwb. unfold write_automated_summary.
  unfold py_bind at 1. unfold load_workbook. rewrite Hwb.
  fold (without_summary wb).
  unfold py_bind at 1. unfold py_lift.
  by destruct (sort_values per_channel).
Qed.



End SummaryWriter.


(** ** Channel spend *)

Lemma notna_iff (c : cell) : notna c <-> c <> NaN.
Proof. destruct c; cbn; intuition congruence. Qed.

Lemma elem_of_group_keys (l : list cell) (k : cell) :
  k ∈ group_keys l <-> k <> NaN /\ k ∈ l.
Proof.
  unfold group_keys. rewrite merge_sort_Permutation, elem_of_remove_dups.
  rewrite list_elem_of_filter. by rewrite notna_iff.
Qed.

Lemma NoDup_group_keys (l : list cell) : NoDup (group_keys l).
Proof.
  unfold group_keys. rewrite merge_sort_Permutation. apply NoDup_remove_dups.
Qed.

Lemma month_cell_value (parse_float : string -> option Qc) (df : DataFrame)
    (h : row -> row) (r : row) (m : string) :
  (forall r col,
     cell_at (h r) col =
       if bool_decide (col ∈ Str <$> month_order /\ col ∉ columns df)
       then Num 0 else cell_at r col) ->
  m ∈ month_order ->
  float_of (fillna (Num 0) (to_numeric parse_float
              (fillna (Num 0) (cell_at (h r) (Str m)))))
    = month_value parse_float df r m /\
  float_of (fillna (Num 0) (to_numeric parse_float (cell_at (h r) (Str m))))
    = month_value parse_float df r m.
Proof.
  intros Hcell Hm. rewrite Hcell. unfold month_value, has_column.
  case_bool_decide as H1; case_bool_decide as H2.
  - by destruct H1.
  - done.
  - destruct (cell_at r (Str m)) as [|x|s]; cbn; try done.
    by destruct (parse_float s).
  - exfalso. apply H1. split; [|done]. by apply list_elem_of_fmap_2.
Qed.

(** The rows [compute_channel_spend] groups, read off the table: one per
    row with a channel name, carrying the name and the two sums of the
    row. *)
Lemma channel_rows_of_table (parse_float : string -> option Qc) (df : DataFrame)
    (months : list string) (name : string) :
  months ⊆ month_order -> name ∈ month_order ->
  (fun r : row =>
     {| Media := cell_at r (Str "Media");
        YTD := sum_axis1 ((fun m => fillna (Num 0)
                             (to_numeric parse_float (fillna (Num 0) (cell_at r (Str m)))))
                            <$> months);
        MONTH := float_of (fillna (Num 0)
                             (to_numeric parse_float (cell_at r (Str name)))) |})
    <$> rows (add_month_columns
                (select_rows df (fun r => notna (cell_at r (Str "Media")))))
  = (fun r : row =>
       {| Media := cell_at r (Str "Media");
          YTD := float_sum (month_value parse_float df r <$> months);
          MONTH := month_value parse_float df r name |})
    <$> filter (fun r => cell_at r (Str "Media") <> NaN) (rows df).
Proof.
  intros Hmonths Hname. unfold add_month_columns.
  destruct (add_missing_columns_spec (Str <$> month_order)
              (select_rows df (fun r => notna (cell_at r (Str "Media")))))
    as (h & added & -> & _ & Hcell).
  cbn [rows columns select_rows] in *.
  rewrite <-list_fmap_compose.
  rewrite (list_filter_iff _ (fun r => cell_at r (Str "Media") <> NaN))
    by (intros r; apply notna_iff).
  apply list_fmap_ext; intros _ r _. unfold compose. f_equal.
  - rewrite Hcell. rewrite bool_decide_eq_false_2; [done|].
    intros [Hin _]. revert Hin. py_eval.
  - unfold sum_axis1. rewrite <-list_fmap_compose. f_equal.
    apply list_fmap_ext; intros i m Hm. unfold compose.
    apply (month_cell_value parse_float df h r m Hcell).
    apply Hmonths. by apply list_elem_of_lookup_2 in Hm.
  - by apply (month_cell_value parse_float df h r name Hcell).
Qed.

(** C3: for a table with a "Media" column and a month M from 1 to 12,
    [compute_channel_spend] returns one row per distinct channel name found
    in a row whose "Media" cell is not empty, and no other row; names are
    told apart exactly. The row's YTD is the sum, over the table rows that
    carry the name, of the months January to month M, and its MONTH the sum
    of month M alone over those rows, a cell counting as the number it
    holds or reads as and as zero otherwise. With M = 1 only January is
    summed, with M = 12 all twelve months. *)
Theorem channel_spend_spec (parse_float : string -> option Qc)
    (df : DataFrame) (M : Z) :
  (1 <= M <= 12)%Z ->
  Str "Media" ∈ columns df ->
  exists out name,
    compute_channel_spend parse_float df M = Ok out /\
    month_order !! Z.to_nat (M - 1) = Some name /\
    NoDup (Media <$> out) /\
    (forall k, k ∈ Media <$> out <->
               k <> NaN /\ exists r, r ∈ rows df /\ cell_at r (Str "Media") = k) /\
    (forall e, e ∈ out ->
       YTD e = float_sum
                 ((fun r => float_sum (month_value parse_float df r
                                         <$> take (Z.to_nat M) month_order))
                    <$> rows_of_channel df (Media e)) /\
       MONTH e = float_sum
                   ((fun r => month_value parse_float df r name)
                      <$> rows_of_channel df (Media e))) /\
    (M = 1%Z -> take (Z.to_nat M) month_order = ["Jan"%string]) /\
    (M = 12%Z -> take (Z.to_nat M) month_order = month_order).
Proof.
  intros HM Hmedia.
  destruct (lookup_lt_is_Some_2 month_order (Z.to_nat (M - 1))) as [name Hname].
  { cbn [length month_order]. lia. }
  exists (groupby_sum
            ((fun r : row =>
                {| Media := cell_at r (Str "Media");
                   YTD := float_sum (month_value parse_float df r
                                       <$> take (Z.to_nat M) month_order);
                   MONTH := month_value parse_float df r name |})
               <$> filter (fun r => cell_at r (Str "Media") <> NaN) (rows df))), name.
  split; [|split; [done|]].
  - unfold compute_channel_spend.
    rewrite (py_index_in_range month_order (M - 1) name) by (lia || done).
    rewrite (getitem_has df (Str "Media") Hmedia). unfold result_bind.
    assert (py_slice_to month_order M = take (Z.to_nat M) month_order) as ->.
    { unfold py_slice_to. destruct (0 <=? M)%Z eqn:E; [done|].
      apply Z.leb_gt in E. lia. }
    f_equal. f_equal. apply channel_rows_of_table.
    + intros m Hm. by apply (subseteq_take (Z.to_nat M)).
    + by apply list_elem_of_lookup_2 in Hname.
  - rewrite groupby_sum_fmap. cbn [Media YTD MONTH].
    rewrite <-list_fmap_compose.
    assert ((Media ∘ (fun k : cell =>
               {| Media := k;
                  YTD := float_sum ((fun r => float_sum (month_value parse_float df r
                                       <$> take (Z.to_nat M) month_order))
                           <$> filter (fun r => cell_at r (Str "Media") = k)
                                 (filter (fun r => cell_at r (Str "Media") <> NaN) (rows df)));
                  MONTH := float_sum ((fun r => month_value parse_float df r name)
                           <$> filter (fun r => cell_at r (Str "Media") = k)
                                 (filter (fun r => cell_at r (Str "Media") <> NaN) (rows df)))
               |})) = id) as Hid by done.
    split; [|split; [|split]].
    + cbv zeta. rewrite Hid, list_fmap_id. apply NoDup_group_keys.
    + intros k. cbv zeta. rewrite Hid, list_fmap_id, elem_of_group_keys.
      rewrite list_elem_of_fmap. split.
      * intros (Hk & r & -> & Hr). apply list_elem_of_filter in Hr as [_ Hr]. eauto.
      * intros (Hk & r & Hr & <-). split; [done|]. exists r. split; [done|].
        by apply list_elem_of_filter.
    + intros e He. apply list_elem_of_fmap in He as (k & -> & Hk).
      apply elem_of_group_keys in Hk as [Hk _]. cbn [Media YTD MONTH].
      unfold rows_of_channel.
      rewrite (list_filter_filter_l (fun r => cell_at r (Str "Media") = k))
        by (intros r ->; done).
      done.
    + split; intros ->; reflexivity.
Qed.

Lemma channel_spend_spec_witness :
  exists out name,
    compute_channel_spend no_parse df_dv360 2 = Ok out /\
    month_order !! Z.to_nat (2 - 1) = Some name /\
    NoDup (Media <$> out) /\
    (forall k, k ∈ Media <$> out <->
               k <> NaN /\ exists r, r ∈ rows df_dv360 /\ cell_at r (Str "Media") = k) /\
    (forall e, e ∈ out ->
       YTD e = float_sum
                 ((fun r => float_sum (month_value no_parse df_dv360 r
                                         <$> take (Z.to_nat 2) month_order))
                    <$> rows_of_channel df_dv360 (Media e)) /\
       MONTH e = float_sum
                   ((fun r => month_value no_parse df_dv360 r name)
                      <$> rows_of_channel df_dv360 (Media e))) /\
    (2%Z = 1%Z -> take (Z.to_nat 2) month_order = ["Jan"%string]) /\
    (2%Z = 12%Z -> take (Z.to_nat 2) month_order = month_order).
Proof. apply (channel_spend_spec no_parse df_dv360 2); [lia | py_eval]. Defined.

(** ** More on the metrics calculator *)

(** On whole amounts of at most 2^51 the year-to-go total never exceeds
    what is left of plan and buffer together, and falls short of it
    exactly when the buffer is negative and spend is still under plan. *)
Theorem ytg_total_at_most_split_whole (plan buf ytd : Z) :
  (Z.abs plan <= 2 ^ 51)%Z -> (Z.abs buf <= 2 ^ 51)%Z -> (Z.abs ytd <= 2 ^ 51)%Z ->
  let s := compute_team_stats_fl binary64 (qz plan) (qz buf) (qz ytd) in
  ytg_total s <= binary64 (remaining_ltp s + remaining_buffer s) /\
  (ytg_total s < binary64 (remaining_ltp s + remaining_buffer s)
     <-> (buf < 0 /\ ytd < plan)%Z).
Proof.
  intros Hp Hb Hy. cbv zeta.
  destruct (compute_team_stats_binary64_whole plan buf ytd Hp Hb Hy)
    as (_ & _ & _ & -> & -> & _).
  unfold qz. rewrite <-Z2Qc_inj_le, <-Z2Qc_inj_lt. lia.
Qed.

Lemma ytg_total_at_most_split_whole_witness :
  let s := compute_team_stats_fl binary64 (qz 10) (qz (-2)) (qz 5) in
  ytg_total s <= binary64 (remaining_ltp s + remaining_buffer s) /\
  (ytg_total s < binary64 (remaining_ltp s + remaining_buffer s)
     <-> (-2 < 0 /\ 5 < 10)%Z).
Proof. apply (ytg_total_at_most_split_whole 10 (-2) 5); lia. Defined.

(** More spend never leaves more: with plan and buffer fixed, a higher
    spend gives no higher remaining plan, remaining buffer and year-to-go
    total, and no lower consumed buffer and overshoot of the base limit. *)
Theorem team_stats_monotone_in_spend (plan buf ytd1 ytd2 : Qc) :
  ytd1 <= ytd2 ->
  let s1 := compute_team_stats plan buf ytd1 in
  let s2 := compute_team_stats plan buf ytd2 in
  remaining_ltp s2 <= remaining_ltp s1 /\
  remaining_buffer s2 <= remaining_buffer s1 /\
  ytg_total s2 <= ytg_total s1 /\
  consumed_buffer s1 <= consumed_buffer s2 /\
  over_vs_base s1 <= over_vs_base s2.
Proof.
  intros H. cbv zeta. unfold compute_team_stats; simpl.
  repeat split; max_cases; qc_lra.
Qed.

Lemma team_stats_monotone_in_spend_witness :
  let s1 := compute_team_stats (qz 100) (qz 20) (qz 90) in
  let s2 := compute_team_stats (qz 100) (qz 20) (qz 110) in
  remaining_ltp s2 <= remaining_ltp s1 /\
  remaining_buffer s2 <= remaining_buffer s1 /\
  ytg_total s2 <= ytg_total s1 /\
  consumed_buffer s1 <= consumed_buffer s2 /\
  over_vs_base s1 <= over_vs_base s2.
Proof. apply (team_stats_monotone_in_spend (qz 100) (qz 20) (qz 90) (qz 110)). py_eval. Defined.

(** Plan is used up before the buffer, on whole amounts of at most 2^51
    with a buffer that is not negative: spend within plan leaves the
    buffer whole; spend between plan and plan + buffer leaves no plan and
    splits the buffer into the part consumed and the part remaining; spend
    of plan + buffer or more leaves nothing, and the consumed buffer is
    then at least the buffer. *)
Theorem plan_before_buffer_whole (plan buf ytd : Z) :
  (Z.abs plan <= 2 ^ 51)%Z -> (Z.abs buf <= 2 ^ 51)%Z -> (Z.abs ytd <= 2 ^ 51)%Z ->
  (0 <= buf)%Z ->
  let s := compute_team_stats_fl binary64 (qz plan) (qz buf) (qz ytd) in
  ((ytd <= plan)%Z ->
     consumed_buffer s = 0 /\ remaining_buffer s = qz buf /\
     remaining_ltp s = qz (plan - ytd)) /\
  ((plan <= ytd)%Z -> (ytd <= plan + buf)%Z ->
     remaining_ltp s = 0 /\ consumed_buffer s = qz (ytd - plan) /\
     binary64 (consumed_buffer s + remaining_buffer s) = qz buf) /\
  ((plan + buf <= ytd)%Z ->
     remaining_ltp s = 0 /\ remaining_buffer s = 0 /\ ytg_total s = 0 /\
     qz buf <= consumed_buffer s).
Proof.
  intros Hp Hb Hy Hb0. cbv zeta.
  destruct (compute_team_stats_binary64_whole plan buf ytd Hp Hb Hy)
    as (-> & -> & -> & -> & _ & ->).
  rewrite <-Z2Qc_inj_0. unfold qz.
  split; [|split].
  - intros H. repeat split; f_equal; lia.
  - intros H1 H2. repeat split; f_equal; lia.
  - intros H. repeat split; try (f_equal; lia).
    apply (proj1 (Z2Qc_inj_le buf (Z.max (ytd - plan) 0))). lia.
Qed.

Lemma plan_before_buffer_whole_witness :
  let s := compute_team_stats_fl binary64 (qz 100) (qz 20) (qz 110) in
  ((110 <= 100)%Z ->
     consumed_buffer s = 0 /\ remaining_buffer s = qz 20 /\
     remaining_ltp s = qz (100 - 110)) /\
  ((100 <= 110)%Z -> (110 <= 100 + 20)%Z ->
     remaining_ltp s = 0 /\ consumed_buffer s = qz (110 - 100) /\
     binary64 (consumed_buffer s + remaining_buffer s) = qz 20) /\
  ((100 + 20 <= 110)%Z ->
     remaining_ltp s = 0 /\ remaining_buffer s = 0 /\ ytg_total s = 0 /\
     qz 20 <= consumed_buffer s).
Proof. apply (plan_before_buffer_whole 100 20 110); lia. Defined.

(** ** More on the table loader *)

Lemma result_mapM_guard_ok {A B} (P : A -> bool) (g : A -> B) (e : exn) (l : list A) :
  Forall (fun a => P a = true) l ->
  result_mapM (fun a => if P a then Ok (g a) else Raise e) l = Ok (g <$> l).
Proof.
  induction 1 as [|a l Ha _ IH]; [done|].
  cbn [result_mapM]. rewrite Ha. cbn [result_bind]. rewrite IH. done.
Qed.

Lemma result_mapM_guard_raise {A B} (P : A -> bool) (g : A -> B) (e : exn) (l : list A) :
  Exists (fun a => P a = false) l ->
  result_mapM (fun a => if P a then Ok (g a) else Raise e) l = Raise e.
Proof.
  induction 1 as [a l Ha|a l _ IH]; cbn [result_mapM].
  - by rewrite Ha.
  - destruct (P a); [|done]. cbn [result_bind]. by rewrite IH.
Qed.

Lemma rename_label_slots (r0 : row) (col : cell) :
  rename_label (list_to_map (zip month_cols_original (cell_at r0 <$> month_cols_original)))
    col = loaded_label r0 col.
Proof.
  unfold rename_label, loaded_label. rewrite lookup_zip_fmap. by case_bool_decide.
Qed.

(** What a successful load is made of. *)
Lemma load_flowplan_dataframe_inv (df d : DataFrame) :
  load_flowplan_dataframe df = Ok d ->
  exists r0 rest,
    rows df = r0 :: rest /\
    (forall c, c ∈ month_cols_original -> c ∈ columns df) /\
    columns d = loaded_label r0 <$> columns df /\
    rows d = (fun r : row =>
                list_to_map ((fun col => (loaded_label r0 col, cell_at r col))
                               <$> columns df)) <$> rest.
Proof.
  intros Hload. unfold load_flowplan_dataframe in Hload.
  destruct (rows df) as [|r0 rest] eqn:Hrows; [done|].
  destruct (result_mapM _ month_cols_original) as [names|] eqn:Hnames; [|done].
  unfold result_bind in Hload.
  remember (zip month_cols_original names) as z eqn:Hz in Hload.
  injection Hload as <-.
  apply result_mapM_guard in Hnames as [-> Hall]. subst z.
  exists r0, rest. split; [done|]. split; [|split].
  - intros c Hc. rewrite Forall_forall in Hall. apply has_column_true. by apply Hall.
  - unfold rename. cbn [columns]. apply list_fmap_ext; intros _ c _.
    apply rename_label_slots.
  - unfold rename. cbn [rows]. apply list_fmap_ext; intros _ r _.
    f_equal. apply list_fmap_ext; intros _ c _. by rewrite rename_label_slots.
Qed.

Lemma load_twelve_labels : load_flowplan_dataframe df_twelve_labels = Ok loaded_twelve.
Proof. py_eval. Qed.

(** The loader raises IndexError on a table with no line, KeyError on a
    table with a line that lacks one of the twelve slot columns, and
    returns a table in every other case. *)
Theorem loader_outcome (df : DataFrame) :
  (rows df = [] -> load_flowplan_dataframe df = Raise IndexError) /\
  (rows df <> [] -> (exists c, c ∈ month_cols_original /\ c ∉ columns df) ->
     load_flowplan_dataframe df = Raise KeyError) /\
  (rows df <> [] -> (forall c, c ∈ month_cols_original -> c ∈ columns df) ->
     exists d, load_flowplan_dataframe df = Ok d).
Proof.
  unfold load_flowplan_dataframe. split; [|split].
  - by intros ->.
  - intros Hne (c & Hc & Hmiss). destruct (rows df) as [|r0 rest]; [done|].
    rewrite (result_mapM_guard_raise (has_column df)); [done|].
    apply Exists_exists. exists c. split; [done|]. by apply has_column_false.
  - intros Hne Hall. destruct (rows df) as [|r0 rest]; [done|].
    rewrite (result_mapM_guard_ok (has_column df)).
    + unfold result_bind. eauto.
    + apply Forall_forall. intros c Hc. apply has_column_true. by apply Hall.
Qed.

(** Loading keeps the data: when the labels after loading are distinct,
    every line after the label line is kept in place and holds, under the
    new label of each source column, the cell it held under the old one. *)
Theorem loader_keeps_cells (df d : DataFrame) :
  load_flowplan_dataframe df = Ok d ->
  NoDup (columns d) ->
  exists r0 rest,
    rows df = r0 :: rest /\
    length (rows d) = length rest /\
    forall i r col,
      rest !! i = Some r -> col ∈ columns df ->
      exists r', rows d !! i = Some r' /\
                 cell_at r' (loaded_label r0 col) = cell_at r col.
Proof.
  intros Hload Hnd.
  destruct (load_flowplan_dataframe_inv df d Hload) as (r0 & rest & Hrows & _ & Hcols & Hd).
  exists r0, rest. split; [done|]. rewrite Hd, length_fmap. split; [done|].
  intros i r col Hi Hcol. eexists. split.
  { rewrite list_lookup_fmap, Hi. reflexivity. }
  unfold cell_at at 1.
  erewrite elem_of_list_to_map_1; [reflexivity| |].
  - assert (((fun col => (loaded_label r0 col, cell_at r col)) <$> columns df).*1
            = loaded_label r0 <$> columns df) as ->
      by (by rewrite <-list_fmap_compose).
    by rewrite <-Hcols.
  - apply list_elem_of_fmap. by exists col.
Qed.

Lemma loader_keeps_cells_witness :
  exists r0 rest,
    rows df_twelve_labels = r0 :: rest /\
    length (rows loaded_twelve) = length rest /\
    forall i r col,
      rest !! i = Some r -> col ∈ columns df_twelve_labels ->
      exists r', rows loaded_twelve !! i = Some r' /\
                 cell_at r' (loaded_label r0 col) = cell_at r col.
Proof.
  apply (loader_keeps_cells df_twelve_labels loaded_twelve load_twelve_labels).
  py_eval.
Defined.

(** When the label line names the twelve months in the twelve slots, the
    loaded table has a column for every month. *)
Theorem loader_month_columns (df d : DataFrame) (r0 : row) (rest : list row) :
  load_flowplan_dataframe df = Ok d ->
  rows df = r0 :: rest ->
  (cell_at r0 <$> month_cols_original) = (Str <$> month_order) ->
  forall m, m ∈ month_order -> Str m ∈ columns d.
Proof.
  intros Hload Hrows Hlabels m Hm.
  destruct (load_flowplan_dataframe_inv df d Hload)
    as (r0' & rest' & Hrows' & Hslots & Hcols & _).
  rewrite Hrows in Hrows'. injection Hrows' as <- <-.
  apply list_elem_of_lookup in Hm as [i Hi].
  assert ((Str <$> month_order) !! i = Some (Str m)) as Hi'
    by (by rewrite list_lookup_fmap, Hi).
  rewrite <-Hlabels, list_lookup_fmap in Hi'.
  destruct (month_cols_original !! i) as [slot|] eqn:Hslot; [|done].
  injection Hi' as Hi'.
  rewrite Hcols. apply list_elem_of_fmap. exists slot. split.
  - unfold loaded_label. rewrite bool_decide_eq_true_2; [done|].
    by apply list_elem_of_lookup_2 in Hslot.
  - apply Hslots. by apply list_elem_of_lookup_2 in Hslot.
Qed.

Lemma loader_month_columns_witness :
  Forall (fun m => Str m ∈ columns loaded_twelve) month_order.
Proof.
  apply Forall_forall.
  apply (loader_month_columns df_twelve_labels loaded_twelve
           (list_to_map (zip month_cols_original (Str <$> month_order)))
           (tail (rows df_twelve_labels)) load_twelve_labels);
    [reflexivity | py_eval].
Defined.

(** ** Scalar reader *)

Lemma wb_getitem_missing (wb : workbook) (title : string) :
  title ∉ sheetnames wb -> wb_getitem wb title = Raise KeyError.
Proof.
  induction wb as [|[t ws] wb IH]; [done|]. cbn.
  intros [Hne Hnotin]%not_elem_of_cons.
  rewrite decide_False by done. by apply IH.
Qed.

Lemma or_zero_not_empty (c : cell) :
  or_zero c <> NaN /\ or_zero c <> Str "" /\ (c = NaN -> or_zero c = Num 0).
Proof.
  destruct c as [|x|s]; cbn.
  - done.
  - destruct (decide (x = 0)); done.
  - destruct (decide (s = ""%string)); [done|]. repeat split; congruence.
Qed.

(** [read_budgets_and_buffers] on a path a workbook is opened from: it
    raises KeyError when the workbook has no budget sheet; otherwise it
    changes nothing and returns, in the order plan and buffer of the first
    team, plan and buffer of the second, the cells K2, K4, Q2, Q4, an empty
    cell, a zero and an empty text each read as the number 0; so no figure
    it returns is empty. *)
Theorem read_budgets_of_workbook (file_path : string) (w : World) (wb : workbook) :
  disk w !! file_path = Some wb ->
  (sheet_name ∉ sheetnames wb ->
     read_budgets_and_buffers file_path w = Raise KeyError) /\
  (forall ws, wb_getitem wb sheet_name = Ok ws ->
     read_budgets_and_buffers file_path w = Ok (budget_figures ws, w) /\
     match budget_figures ws with
     | (marcom_ltp, marcom_buffer, dm_ltp, dm_buffer) =>
         Forall (fun v => v <> NaN /\ v <> Str "")
                [marcom_ltp; marcom_buffer; dm_ltp; dm_buffer] /\
         (ws !! ("K", 2%nat)%string = None -> marcom_ltp = Num 0) /\
         (ws !! ("K", 4%nat)%string = None -> marcom_buffer = Num 0) /\
         (ws !! ("Q", 2%nat)%string = None -> dm_ltp = Num 0) /\
         (ws !! ("Q", 4%nat)%string = None -> dm_buffer = Num 0)
     end).
Proof.
  intros Hwb. unfold read_budgets_and_buffers, py_bind, load_workbook.
  rewrite Hwb. split.
  - intros Hmiss. by rewrite (wb_getitem_missing wb sheet_name Hmiss).
  - intros ws ->. split; [done|]. unfold budget_figures.
    split; [|repeat split; by intros ->].
    repeat constructor; apply or_zero_not_empty.
Qed.

Lemma read_budgets_of_workbook_witness :
  read_budgets_and_buffers "plan.xlsx" (disk_of "plan.xlsx" wb_budgets)
    = Ok ((Num (qz 1000), Num 0, Str "tbd", Num 0), disk_of "plan.xlsx" wb_budgets) /\
  read_budgets_and_buffers "plan.xlsx" (disk_of "plan.xlsx" [("Cover"%string, ∅)])
    = Raise KeyError.
Proof.
  split.
  - destruct (read_budgets_of_workbook "plan.xlsx" (disk_of "plan.xlsx" wb_budgets)
                wb_budgets eq_refl) as [_ H].
    destruct (H {[ ("K", 2%nat)%string := Num (qz 1000);
                   ("Q", 2%nat)%string := Str "tbd";
                   ("Q", 4%nat)%string := Str "" ]}) as [Hrun _]; [reflexivity|].
    rewrite Hrun. py_eval.
  - apply (read_budgets_of_workbook "plan.xlsx"
             (disk_of "plan.xlsx" [("Cover"%string, ∅)]) [("Cover"%string, ∅)] eq_refl).
    py_eval.
Defined.

(** ** More on the team totals *)

Lemma add_missing_columns_present (cols : list cell) (df : DataFrame) :
  (forall c, c ∈ cols -> c ∈ columns df) -> add_missing_columns df cols = df.
Proof.
  unfold add_missing_columns. induction cols as [|c cols IH]; intros Hall; [done|].
  cbn [foldl]. rewrite (proj2 (has_column_true df c)) by (apply Hall; by left).
  apply IH. intros c' Hc'. apply Hall. by right.
Qed.

Lemma py_add_from_numbers (a : Qc) (cs : list cell) :
  Forall not_text cs ->
  py_add_from (Num a) (fillna (Num 0) <$> cs) = Ok (Num (a + float_sum (float_of <$> cs))).
Proof.
  intros Hcs. revert a. induction Hcs as [|c cs Hc _ IH]; intros a.
  - cbn. by rewrite Qcplus_0_r.
  - rewrite !fmap_cons, float_sum_cons. cbn [py_add_from].
    destruct c as [|x|s]; [| |done]; cbn [fillna py_add result_bind float_of];
      rewrite IH; by rewrite Qcplus_assoc.
Qed.

Lemma series_sum_numbers (cs : list cell) :
  Forall not_text cs ->
  series_sum (fillna (Num 0) <$> cs) = Ok (Num (float_sum (float_of <$> cs))).
Proof.
  intros Hcs. unfold series_sum. rewrite <-list_fmap_compose.
  assert ((fillna (Num 0) ∘ fillna (Num 0)) <$> cs = fillna (Num 0) <$> cs) as ->.
  { apply list_fmap_ext; intros _ c _. by destruct c. }
  destruct Hcs as [|c cs Hc Hcs]; [done|].
  rewrite !fmap_cons, float_sum_cons.
  destruct c as [|x|s]; [| |done]; cbn [fillna float_of];
    rewrite (py_add_from_numbers _ cs Hcs); [by rewrite Qcplus_0_l | done].
Qed.

(** On a table that has its four columns and holds no text in the two
    spend columns of its campaign rows, [compute_ytd_by_team] leaves the
    table as it is and returns the two sums over the rows whose campaign
    cell is filled and whose channel cell is empty, an empty spend cell
    counting as zero. *)
Theorem ytd_by_team_numbers (l : nat) (d : DataFrame) (w : World) :
  frames w !! l = Some d ->
  (forall c, c ∈ ytd_columns -> c ∈ columns d) ->
  let campaign_rows :=
    filter (fun r => cell_at r (Str "CAMPAIGN") <> NaN /\ cell_at r (Str "Media") = NaN)
           (rows d) in
  (forall r, r ∈ campaign_rows ->
     not_text (cell_at r (Str "Actual")) /\ not_text (cell_at r (Str "Unnamed: 20"))) ->
  compute_ytd_by_team l w =
    Ok ((Num (float_sum ((fun r => float_of (cell_at r (Str "Actual"))) <$> campaign_rows)),
         Num (float_sum ((fun r => float_of (cell_at r (Str "Unnamed: 20")))
                           <$> campaign_rows))), w).
Proof.
  intros Hl Hcols campaign_rows Hnum.
  rewrite (compute_ytd_by_team_run l d w Hl).
  rewrite (add_missing_columns_present ytd_columns d Hcols).
  rewrite insert_id by done.
  unfold ytd_sums. cbn [select_rows rows].
  assert (filter (fun r => is_campaign_row r) (rows d) = campaign_rows) as ->.
  { apply list_filter_iff. intros r. unfold is_campaign_row, isna.
    destruct (cell_at r (Str "CAMPAIGN")), (cell_at r (Str "Media")); cbn;
      intuition congruence. }
  rewrite !series_sum_numbers.
  - cbn [result_bind]. rewrite <-!list_fmap_compose. by destruct w.
  - apply Forall_fmap, Forall_forall. intros r Hr. by apply Hnum.
  - apply Forall_fmap, Forall_forall. intros r Hr. by apply Hnum.
Qed.

Lemma ytd_by_team_numbers_witness :
  let campaign_rows :=
    filter (fun r => cell_at r (Str "CAMPAIGN") <> NaN /\ cell_at r (Str "Media") = NaN)
           (rows df_campaigns) in
  compute_ytd_by_team 0 (world_of df_campaigns) =
    Ok ((Num (float_sum ((fun r => float_of (cell_at r (Str "Actual"))) <$> campaign_rows)),
         Num (float_sum ((fun r => float_of (cell_at r (Str "Unnamed: 20")))
                           <$> campaign_rows))), world_of df_campaigns) /\
  float_sum ((fun r => float_of (cell_at r (Str "Actual"))) <$> campaign_rows) = qz 100 /\
  float_sum ((fun r => float_of (cell_at r (Str "Unnamed: 20"))) <$> campaign_rows) = qz 75.
Proof.
  cbv zeta. split; [|split; py_eval].
  apply (ytd_by_team_numbers 0 df_campaigns (world_of df_campaigns)).
  - reflexivity.
  - apply Forall_forall. py_eval.
  - apply Forall_forall. py_eval.
Defined.

Lemma filter_none {A} (P : A -> Prop) `{!forall x, Decision (P x)} (l : list A) :
  (forall x, x ∈ l -> ~ P x) -> filter P l = [].
Proof.
  induction l as [|a l IH]; intros Hall; [done|].
  rewrite filter_cons_False by (apply Hall; by left).
  apply IH. intros x Hx. apply Hall. by right.
Qed.

(** On a table without a "Media" column the column is added holding 0,
    which is not empty, so no row counts as a campaign row and both totals
    are 0, whatever the spend columns hold. *)
Theorem ytd_by_team_without_media (l : nat) (d : DataFrame) (w : World) :
  frames w !! l = Some d ->
  Str "Media" ∉ columns d ->
  exists w', compute_ytd_by_team l w = Ok ((Num 0, Num 0), w').
Proof.
  intros Hl Hmiss. rewrite (compute_ytd_by_team_run l d w Hl).
  destruct (add_missing_columns_spec ytd_columns d) as (h & added & Heq & _ & Hcell).
  unfold ytd_sums. rewrite Heq. cbn [select_rows rows].
  rewrite filter_none.
  - cbn. eauto.
  - intros r (r0 & -> & _)%list_elem_of_fmap. unfold is_campaign_row.
    rewrite (Hcell r0 (Str "Media")).
    rewrite bool_decide_eq_true_2 by (split; [py_eval | done]).
    cbn. rewrite andb_false_r. intros H. exact H.
Qed.

Lemma ytd_by_team_without_media_witness :
  exists w', compute_ytd_by_team 0 (world_of df_no_media) = Ok ((Num 0, Num 0), w').
Proof.
  apply (ytd_by_team_without_media 0 df_no_media (world_of df_no_media));
    [reflexivity | py_eval].
Defined.

(** Calling [compute_ytd_by_team] again on the table it has just changed
    changes nothing more and returns the same totals. *)
Theorem ytd_by_team_twice (l : nat) (d : DataFrame) (w w1 : World) (res : cell * cell) :
  frames w !! l = Some d ->
  compute_ytd_by_team l w = Ok (res, w1) ->
  compute_ytd_by_team l w1 = Ok (res, w1).
Proof.
  intros Hl Hrun. rewrite (compute_ytd_by_team_run l d w Hl) in Hrun.
  destruct (ytd_sums (add_missing_columns d ytd_columns)) as [ab|] eqn:Hsums; [|done].
  injection Hrun as <- <-.
  rewrite (compute_ytd_by_team_run l (add_missing_columns d ytd_columns))
    by (cbn [frames]; apply lookup_insert_eq).
  rewrite (add_missing_columns_present ytd_columns (add_missing_columns d ytd_columns)).
  - rewrite Hsums. cbn [frames disk]. by rewrite insert_insert_eq.
  - intros c Hc. apply add_missing_columns_has. by right.
Qed.

Lemma ytd_by_team_twice_witness :
  exists w1, compute_ytd_by_team 0 (world_of df_no_media) = Ok ((Num 0, Num 0), w1) /\
             compute_ytd_by_team 0 w1 = Ok ((Num 0, Num 0), w1).
Proof.
  pose (w1 := {| frames := <[0%nat := add_missing_columns df_no_media ytd_columns]>
                             (frames (world_of df_no_media));
                 disk := disk (world_of df_no_media) |}).
  assert (compute_ytd_by_team 0 (world_of df_no_media) = Ok ((Num 0, Num 0), w1)) as Hrun
    by py_eval.
  exists w1. split; [exact Hrun|].
  apply (ytd_by_team_twice 0 df_no_media (world_of df_no_media) w1 _ eq_refl Hrun).
Defined.

(** ** More on the channel spend *)

Lemma month_index_ok (M : Z) :
  (-11 <= M <= 12)%Z -> exists name, py_index month_order (M - 1) = Ok name.
Proof.
  intros HM.
  assert (exists n : nat, (n < 24)%nat /\ M = (Z.of_nat n - 11)%Z) as (n & Hn & ->).
  { exists (Z.to_nat (M + 11)). lia. }
  do 24 (destruct n as [|n]; [eexists; reflexivity|]). lia.
Qed.

(** Without a "Media" column [compute_channel_spend] raises KeyError, for
    every month index that names a month (-11 to 12). *)
Theorem channel_spend_without_media (parse_float : string -> option Qc)
    (df : DataFrame) (M : Z) :
  (-11 <= M <= 12)%Z ->
  Str "Media" ∉ columns df ->
  compute_channel_spend parse_float df M = Raise KeyError.
Proof.
  intros HM Hmiss. unfold compute_channel_spend.
  destruct (month_index_ok M HM) as [name ->]. cbn [result_bind].
  by rewrite (getitem_missing df (Str "Media") Hmiss).
Qed.

Lemma channel_spend_without_media_witness :
  compute_channel_spend no_parse df_no_media 11 = Raise KeyError.
Proof.
  apply (channel_spend_without_media no_parse df_no_media 11); [lia | py_eval].
Defined.

(** ** The output path *)

Lemma string_length_append (s1 s2 : string) :
  String.length (s1 +:+ s2) = (String.length s1 + String.length s2)%nat.
Proof. induction s1 as [|c s1 IH]; [done|]. simpl. f_equal. exact IH. Qed.

Lemma prefix_length (s1 s2 : string) :
  String.prefix s1 s2 = true -> (String.length s1 <= String.length s2)%nat.
Proof.
  revert s1. induction s2 as [|c s2 IH]; intros [|c1 s1]; cbn; try done; try lia.
  destruct (Ascii.ascii_dec c1 c); [|done]. intros H. apply IH in H. lia.
Qed.

Lemma replace_from_absent (old new s : string) :
  has_substring old s = false -> replace_from old new 0 s = s.
Proof.
  induction s as [|c s IH]; [done|]. cbn [has_substring replace_from].
  intros [H1 H2]%orb_false_elim. rewrite H1. by rewrite IH.
Qed.

Lemma replace_from_length (old new : string) (k : nat) (s : string) :
  (1 <= String.length old <= String.length new)%nat ->
  (String.length s <= String.length (replace_from old new k s) + k)%nat.
Proof.
  intros Hlen. revert k. induction s as [|c s IH]; intros k; [cbn; lia|].
  cbn [replace_from]. destruct k as [|k].
  - destruct (String.prefix old (String c s)) eqn:Hp.
    + rewrite string_length_append.
      specialize (IH (String.length old - 1)%nat). cbn [String.length]. lia.
    + specialize (IH 0%nat). cbn [String.length]. lia.
  - specialize (IH k). cbn [String.length]. lia.
Qed.

Lemma replace_from_longer (old new s : string) :
  (1 <= String.length old < String.length new)%nat ->
  has_substring old s = true ->
  (String.length s < String.length (replace_from old new 0 s))%nat.
Proof.
  intros Hlen. induction s as [|c s IH]; cbn [has_substring replace_from].
  - destruct old; [cbn in Hlen; lia | done].
  - destruct (String.prefix old (String c s)) eqn:Hp.
    + intros _. rewrite string_length_append.
      pose proof (replace_from_length old new (String.length old - 1) s) as H.
      cbn [String.length]. lia.
    + cbn [orb]. intros H. apply IH in H. cbn [String.length]. lia.
Qed.

(** The path the summary is saved to differs from the input path exactly
    when the input path has ".xlsx" in it; otherwise it is the input
    path. *)
Lemma out_path_differs (file_path : string) :
  (has_substring ".xlsx" file_path = true ->
     py_replace ".xlsx" "_automated.xlsx" file_path <> file_path) /\
  (has_substring ".xlsx" file_path = false ->
     py_replace ".xlsx" "_automated.xlsx" file_path = file_path).
Proof.
  unfold py_replace. rewrite decide_False by done. split.
  - intros H Heq.
    pose proof (replace_from_longer ".xlsx" "_automated.xlsx" file_path) as Hlt.
    rewrite Heq in Hlt. cbn [String.length] in Hlt. specialize (Hlt ltac:(lia) H). lia.
  - apply replace_from_absent.
Qed.

(** When the input path has ".xlsx" in it, a run of the writer that
    returns has saved under another path: the input file and every file
    but the one at the returned path are as before, and so are the tables
    in memory. *)
Theorem summary_writer_keeps_input
    (unique_title : list string -> string -> string) (file_path : string)
    (marcom_stats dm_stats : TeamStats) (per_channel : list ChannelRow)
    (current_month : Z) (w w1 : World) (out : string) :
  has_substring ".xlsx" file_path = true ->
  write_automated_summary unique_title file_path marcom_stats dm_stats
    per_channel current_month w = Ok (out, w1) ->
  out = py_replace ".xlsx" "_automated.xlsx" file_path /\
  out <> file_path /\
  disk w1 !! file_path = disk w !! file_path /\
  (forall q, q <> out -> disk w1 !! q = disk w !! q) /\
  is_Some (disk w1 !! out) /\
  frames w1 = frames w.
Proof.
  intros Hsub Hrun.
  destruct (disk w !! file_path) as [wb|] eqn:Hwb.
  2: { unfold write_automated_summary, py_bind, load_workbook in Hrun.
       by rewrite Hwb in Hrun. }
  rewrite (write_automated_summary_run unique_title _ _ _ _ _ _ wb Hwb) in Hrun.
  destruct (sort_values per_channel) as [sorted|]; [|done].
  injection Hrun as <- <-. cbn [disk frames].
  pose proof (proj1 (out_path_differs file_path) Hsub) as Hne.
  split; [done|]. split; [done|]. split; [|split; [|split]].
  - rewrite lookup_insert_ne by done. done.
  - intros q Hq. by rewrite lookup_insert_ne.
  - rewrite lookup_insert_eq. eauto.
  - done.
Qed.

Lemma summary_writer_keeps_input_witness :
  exists w1,
    write_automated_summary title_or_numbered FILE_PATH
      (compute_team_stats (qz 100) (qz 20) (qz 110))
      (compute_team_stats (qz 50) (qz 5) (qz 10)) [] 11
      (disk_of FILE_PATH wb_with_summary)
      = Ok ("2025 Digital budget flowplan_automated.xlsx"%string, w1) /\
    disk w1 !! FILE_PATH = Some wb_with_summary.
Proof.
  destruct (write_automated_summary title_or_numbered FILE_PATH
              (compute_team_stats (qz 100) (qz 20) (qz 110))
              (compute_team_stats (qz 50) (qz 5) (qz 10)) [] 11
              (disk_of FILE_PATH wb_with_summary)) as [[out w1]|] eqn:Hrun;
    [|exfalso; revert Hrun; py_eval].
  destruct (summary_writer_keeps_input title_or_numbered FILE_PATH _ _ _ _ _ _ _
              eq_refl Hrun) as (-> & _ & Hkeep & _).
  exists w1. split; [reflexivity|]. rewrite Hkeep. reflexivity.
Defined.

(** When the input path has no ".xlsx" in it, the writer saves under the
    input path itself: the file it opened is replaced by the workbook with
    the new summary. *)
Theorem summary_writer_overwrites_input
    (unique_title : list string -> string -> string) (file_path : string)
    (marcom_stats dm_stats : TeamStats) (per_channel : list ChannelRow)
    (current_month : Z) (w w1 : World) (out : string) (wb : workbook) :
  has_substring ".xlsx" file_path = false ->
  disk w !! file_path = Some wb ->
  write_automated_summary unique_title file_path marcom_stats dm_stats
    per_channel current_month w = Ok (out, w1) ->
  out = file_path /\
  exists title ws, disk w1 !! file_path = Some (without_summary wb ++ [(title, ws)]).
Proof.
  intros Hsub Hwb Hrun.
  rewrite (write_automated_summary_run unique_title _ _ _ _ _ _ wb Hwb) in Hrun.
  destruct (sort_values per_channel) as [sorted|]; [|done].
  rewrite (proj2 (out_path_differs file_path) Hsub) in Hrun.
  injection Hrun as <- <-. split; [done|]. cbn [disk].
  rewrite lookup_insert_eq. eauto.
Qed.

Lemma summary_writer_overwrites_input_witness :
  exists w1 title ws,
    write_automated_summary title_or_numbered "FLOWPLAN.XLSX"
      (compute_team_stats (qz 100) (qz 20) (qz 110))
      (compute_team_stats (qz 50) (qz 5) (qz 10)) [] 11
      (disk_of "FLOWPLAN.XLSX" wb_flowplan) = Ok ("FLOWPLAN.XLSX"%string, w1) /\
    disk w1 !! "FLOWPLAN.XLSX"%string = Some (without_summary wb_flowplan ++ [(title, ws)]).
Proof.
  destruct (write_automated_summary title_or_numbered "FLOWPLAN.XLSX"
              (compute_team_stats (qz 100) (qz 20) (qz 110))
              (compute_team_stats (qz 50) (qz 5) (qz 10)) [] 11
              (disk_of "FLOWPLAN.XLSX" wb_flowplan)) as [[out w1]|] eqn:Hrun;
    [|exfalso; revert Hrun; py_eval].
  destruct (summary_writer_overwrites_input title_or_numbered "FLOWPLAN.XLSX" _ _ _ _
              (disk_of "FLOWPLAN.XLSX" wb_flowplan) w1 out
              wb_flowplan eq_refl eq_refl Hrun) as (-> & title & ws & H).
  exists w1, title, ws. split; [reflexivity | exact H].
Defined.

(** ** Order of the channel lines *)




(** ** Layout of the summary sheet *)

Lemma write_channel_rows_below (ws : sheet) (line : nat) (recs : list ChannelRow)
    (c : string) (n : nat) :
  (n < line)%nat -> write_channel_rows ws line recs !! (c, n) = ws !! (c, n).
Proof.
  revert ws line. induction recs as [|rec recs IH]; intros ws line Hn; [done|].
  cbn [write_channel_rows]. rewrite IH by lia.
  rewrite !lookup_insert_ne by (intros [= _ ?]; lia). done.
Qed.

Lemma write_channel_rows_beyond (ws : sheet) (line : nat) (recs : list ChannelRow)
    (c : string) (n : nat) :
  (line + length recs <= n)%nat ->
  write_channel_rows ws line recs !! (c, n) = ws !! (c, n).
Proof.
  revert ws line. induction recs as [|rec recs IH]; intros ws line Hn; [done|].
  cbn [write_channel_rows]. cbn [length] in Hn. rewrite IH by lia.
  rewrite !lookup_insert_ne by (intros [= _ ?]; lia). done.
Qed.

Lemma write_channel_rows_at (ws : sheet) (line : nat) (recs : list ChannelRow)
    (i : nat) (rec : ChannelRow) :
  recs !! i = Some rec ->
  write_channel_rows ws line recs !! ("A"%string, (line + i)%nat) = Some (Media rec) /\
  write_channel_rows ws line recs !! ("B"%string, (line + i)%nat) = Some (Num (YTD rec)) /\
  write_channel_rows ws line recs !! ("C"%string, (line + i)%nat) = Some (Num (MONTH rec)).
Proof.
  revert ws line i. induction recs as [|rec0 recs IH]; intros ws line i Hi; [done|].
  cbn [write_channel_rows]. destruct i as [|i].
  - injection Hi as ->. rewrite Nat.add_0_r.
    rewrite !write_channel_rows_below by lia.
    repeat split.
    + rewrite !lookup_insert_ne by done. by rewrite lookup_insert_eq.
    + rewrite lookup_insert_ne by done. by rewrite lookup_insert_eq.
    + by rewrite lookup_insert_eq.
  - replace (line + S i)%nat with ((line + 1) + i)%nat by lia. by apply IH.
Qed.

(** The sheet the writer fills: the ten headings on line 1, the two team
    lines on lines 2 and 3, the section title on line 5 and its three
    headings on line 6, then one line per channel row from line 7 on, in
    the order given; line 4 and everything below the last channel line is
    empty. Channel lines never overwrite the lines above them. *)
Theorem summary_layout (marcom_stats dm_stats : TeamStats)
    (sorted : list ChannelRow) (current_month : Z) :
  let ws := fill_summary ∅ marcom_stats dm_stats sorted current_month in
  Forall (fun hc => ws !! (hc.1, 1%nat) = Some (Str hc.2)) header_cells /\
  Forall (fun tc => ws !! (tc.1, 2%nat) = Some tc.2) (team_row_cells "MarCom" marcom_stats) /\
  Forall (fun tc => ws !! (tc.1, 3%nat) = Some tc.2)
         (team_row_cells "Digital Marketing" dm_stats) /\
  ws !! ("A"%string, 5%nat)
    = Some (Str ("Channel spend (current month = " +:+ pretty current_month +:+ ")")) /\
  ws !! ("A"%string, 6%nat) = Some (Str "Channel") /\
  ws !! ("B"%string, 6%nat) = Some (Str "Spend YTD") /\
  ws !! ("C"%string, 6%nat) = Some (Str "Spend current month") /\
  (forall i rec, sorted !! i = Some rec ->
     ws !! ("A"%string, (7 + i)%nat) = Some (Media rec) /\
     ws !! ("B"%string, (7 + i)%nat) = Some (Num (YTD rec)) /\
     ws !! ("C"%string, (7 + i)%nat) = Some (Num (MONTH rec))) /\
  (forall c, ws !! (c, 4%nat) = None) /\
  (forall c n, (7 + length sorted <= n)%nat -> ws !! (c, n) = None).
Proof.
  cbv zeta. unfold fill_summary.
  repeat split.
  1-3: repeat constructor; cbn [fst snd];
       rewrite write_channel_rows_below by lia; vm_compute; reflexivity.
  1-4: rewrite write_channel_rows_below by lia; vm_compute; reflexivity.
  - by apply write_channel_rows_at.
  - by apply write_channel_rows_at.
  - by apply write_channel_rows_at.
  - intros c. rewrite write_channel_rows_below by lia.
    unfold write_team_row, header_cells. cbn [foldl fst snd].
    rewrite !lookup_insert_ne by (intros [= _ ?]; lia). apply lookup_empty.
  - intros c n Hn. rewrite write_channel_rows_beyond by lia.
    unfold write_team_row, header_cells. cbn [foldl fst snd].
    rewrite !lookup_insert_ne by (intros [= _ ?]; lia). apply lookup_empty.
Qed.



(** ** The run *)

Lemma py_lift_inv {A} (r : result A) (w w' : World) (a : A) :
  py_lift r w = Ok (a, w') -> r = Ok a /\ w' = w.
Proof. unfold py_lift. destruct r; [|done]. by intros [= -> ->]. Qed.

Lemma read_budgets_world (file_path : string) (w w' : World)
    (figures : cell * cell * cell * cell) :
  read_budgets_and_buffers file_path w = Ok (figures, w') ->
  w' = w /\ is_Some (disk w !! file_path).
Proof.
  unfold read_budgets_and_buffers, py_bind, load_workbook.
  destruct (disk w !! file_path) as [wb|]; [|done].
  unfold py_lift. destruct (wb_getitem wb sheet_name); [|done].
  unfold py_ret. intros [= _ <-]. eauto.
Qed.

(** A run of [main] that returns has saved the workbook under
    "2025 Digital budget flowplan_automated.xlsx": the input file, which
    was there, and every other file are as before. *)
Theorem main_keeps_input (unique_title : list string -> string -> string)
    (parse_float : string -> option Qc) (sheet_frame : DataFrame)
    (w w1 : World) (out : string) :
  main unique_title parse_float sheet_frame w = Ok (out, w1) ->
  out = "2025 Digital budget flowplan_automated.xlsx"%string /\
  is_Some (disk w !! FILE_PATH) /\
  disk w1 !! FILE_PATH = disk w !! FILE_PATH /\
  (forall q, q <> out -> disk w1 !! q = disk w !! q) /\
  is_Some (disk w1 !! out).
Proof.
  unfold main. intros Hrun.
  unfold py_bind at 1 in Hrun.
  destruct (py_lift (load_flowplan_dataframe sheet_frame) w) as [[loaded wa]|] eqn:E1; [|done].
  apply py_lift_inv in E1 as [_ ->].
  unfold py_bind at 1 in Hrun. unfold alloc at 1 in Hrun.
  set (l := fresh (dom (frames w))) in Hrun.
  set (wa := {| frames := <[l := loaded]> (frames w); disk := disk w |}) in Hrun.
  unfold py_bind at 1 in Hrun.
  destruct (read_budgets_and_buffers FILE_PATH wa) as [[[[[b1 b2] b3] b4] wb']|] eqn:E2;
    [|done].
  apply read_budgets_world in E2 as [-> Hfile].
  unfold py_bind at 1 in Hrun.
  rewrite (compute_ytd_by_team_run l loaded wa) in Hrun
    by (subst wa; cbn [frames]; apply lookup_insert_eq).
  destruct (ytd_sums _) as [[y1 y2]|]; [|done].
  set (wc := {| frames := _; disk := disk wa |}) in Hrun.
  unfold py_bind at 1 in Hrun.
  destruct (py_lift (team_stats_of b1 b2 y1) wc) as [[ms wd]|] eqn:E3; [|done].
  apply py_lift_inv in E3 as [_ ->].
  unfold py_bind at 1 in Hrun.
  destruct (py_lift (team_stats_of b3 b4 y2) wc) as [[ds wd]|] eqn:E4; [|done].
  apply py_lift_inv in E4 as [_ ->].
  unfold py_bind at 1 in Hrun.
  destruct (deref l wc) as [[table wd]|] eqn:E5; [|done].
  assert (wd = wc) as ->.
  { unfold deref in E5. destruct (frames wc !! l); [|done]. by injection E5 as _ <-. }
  unfold py_bind at 1 in Hrun.
  destruct (py_lift (compute_channel_spend parse_float table CURRENT_MONTH) wc)
    as [[pc wd]|] eqn:E6; [|done].
  apply py_lift_inv in E6 as [_ ->].
  destruct Hfile as [wbk Hwbk].
  rewrite (write_automated_summary_run unique_title _ _ _ _ _ wc wbk) in Hrun
    by exact Hwbk.
  destruct (sort_values pc); [|done].
  injection Hrun as <- <-. cbn [disk wc wa].
  assert (py_replace ".xlsx" "_automated.xlsx" FILE_PATH
          = "2025 Digital budget flowplan_automated.xlsx"%string) as -> by reflexivity.
  split; [done|]. split; [by exists wbk|]. split; [|split].
  - by rewrite lookup_insert_ne.
  - intros q Hq. by rewrite lookup_insert_ne.
  - rewrite lookup_insert_eq. eauto.
Qed.

Lemma main_keeps_input_witness :
  exists w1,
    main title_or_numbered no_parse frame_run (disk_of FILE_PATH wb_run)
      = Ok ("2025 Digital budget flowplan_automated.xlsx"%string, w1) /\
    disk w1 !! FILE_PATH = Some wb_run.
Proof.
  destruct (main title_or_numbered no_parse frame_run (disk_of FILE_PATH wb_run))
    as [[out w1]|] eqn:Hrun; [|exfalso; revert Hrun; py_eval].
  destruct (main_keeps_input title_or_numbered no_parse frame_run
              (disk_of FILE_PATH wb_run) w1 out Hrun) as (-> & _ & Hkeep & _).
  exists w1. split; [reflexivity|]. rewrite Hkeep. reflexivity.
Defined.
